(** * Primerade: authentication, authorization and error normalisation

    A shallow embedding of the Express middleware of the repository
    (middleware/auth.js, middleware/errorHandler.js), of the product and
    user routes that sit behind it (routes/v1/products.js,
    routes/v1/users.js) and of the way server.js chains them, followed by
    the properties the specification states about them.

    JavaScript objects are finite maps from property names to values,
    thrown exceptions are an explicit [Throw] completion, and the process
    state the handlers touch (tables, environment, console) is threaded
    through a small state-and-exception monad. *)

From Stdlib Require Import ZArith.
From stdpp Require Import base option gmap strings list fin_maps sorting.

Set Warnings "-register-all".
#[local] Open Scope Z_scope.

(* ===================================================================== *)
(** ** JavaScript values *)
(* ===================================================================== *)

Module JS.

(** Primitive values, and objects by reference.  Numbers are the
    integers plus [NaN]; nothing below does other arithmetic. *)
Inductive jsval :=
| JUndefined
| JNull
| JBool (b : bool)
| JNum (n : Z)
| JNaN
| JStr (s : string)
| JRef (r : nat).

#[global] Instance jsval_eq_dec : EqDecision jsval.
Proof. solve_decision. Defined.

(** [ToBoolean]: what [if (v)], [!v] and [||] test. *)
Definition truthy (v : jsval) : bool :=
  match v with
  | JUndefined | JNull | JNaN => false
  | JBool b => b
  | JNum n => negb (n =? 0)
  | JStr s => negb (String.eqb s "")
  | JRef _ => true
  end.

(** [a || b] yields the first operand when it is truthy, else the second. *)
Definition js_or (a b : jsval) : jsval := if truthy a then a else b.

(** [a === b]: no coercion, [NaN] differs from itself, objects compare
    by reference. *)
Definition strict_eq (a b : jsval) : bool :=
  match a, b with
  | JUndefined, JUndefined => true
  | JNull, JNull => true
  | JBool x, JBool y => Bool.eqb x y
  | JNum x, JNum y => x =? y
  | JStr x, JStr y => String.eqb x y
  | JRef x, JRef y => Nat.eqb x y
  | _, _ => false
  end.

(** [a !== b] *)
Definition strict_ne (a b : jsval) : bool := negb (strict_eq a b).

(** A plain object: own properties by name. *)
Abbreviation Obj := (gmap string jsval).

(** [o.k]: a missing property reads as [undefined]. *)
Definition get (o : Obj) (k : string) : jsval := default JUndefined (o !! k).

(** [s.startsWith(p)] *)
Definition startsWith (s p : string) : bool := String.prefix p s.

(** [s.substring(n)] for [n] within the string: the first [n] code
    units are dropped. *)
Fixpoint substring_from (n : nat) (s : string) : string :=
  match n, s with
  | O, _ => s
  | S n', String _ s' => substring_from n' s'
  | S _, EmptyString => EmptyString
  end.

(** [xs.join(sep)] on an array of strings. *)
Fixpoint join (sep : string) (xs : list string) : string :=
  match xs with
  | [] => ""
  | [x] => x
  | x :: rest => x +:+ sep +:+ join sep rest
  end.

(** What is handed to [res.json]: a tree of values, arrays and object
    literals. *)
Inductive json :=
| JV (v : jsval)
| JArr (xs : list json)
| JObject (fields : gmap string json).

(** An error object as the handlers inspect it.  [err_statusCode] is an
    own enumerable property (copied by a spread); [err_errors] is
    [err.errors]: [None] when the error has no such property, else the
    [message] of each of its items. *)
Record JsError := {
  err_name : jsval;
  err_message : jsval;
  err_statusCode : jsval;
  err_stack : jsval;
  err_errors : option (list string)
}.

(** How an evaluation ends: with a value, or with a thrown error. *)
Inductive Completion (A : Type) :=
| Normal (a : A)
| Throw (e : JsError).
Arguments Normal {A} a.
Arguments Throw {A} e.

(** The [TypeError] raised by reading a property of [undefined]. *)
Definition TypeError_undefined (prop : string) : JsError :=
  {| err_name := JStr "TypeError";
     err_message := JStr ("Cannot read properties of undefined (reading '" +:+ prop +:+ "')");
     err_statusCode := JUndefined;
     err_stack := JUndefined;
     err_errors := None |}.

(** The [TypeError] raised by [Object.values(undefined)]. *)
Definition TypeError_not_object : JsError :=
  {| err_name := JStr "TypeError";
     err_message := JStr "Cannot convert undefined or null to object";
     err_statusCode := JUndefined;
     err_stack := JUndefined;
     err_errors := None |}.

End JS.
Import JS.

(* ===================================================================== *)
(** ** The process: tables, environment, console *)
(* ===================================================================== *)

Module Express.

(** [process.env], as far as the code reads it. *)
Record Env := {
  JWT_SECRET : jsval;
  NODE_ENV : jsval
}.

(** The state a request can observe or change.  [db_fault], when set,
    is the error every query throws (connection lost and the like);
    [console] collects what [console.error] was given, newest first. *)
Record World := {
  env : Env;
  clock : Z;
  users : list Obj;
  products : list Obj;
  db_fault : option JsError;
  console : list JsError
}.

(** State and exceptions: the shape of an [async] function body. *)
Definition Eff (A : Type) : Type := World → Completion A * World.

#[global] Instance Eff_ret : MRet Eff := λ A a w, (Normal a, w).
#[global] Instance Eff_bind : MBind Eff := λ A B k m w,
  match m w with
  | (Normal a, w') => k a w'
  | (Throw e, w') => (Throw e, w')
  end.

Definition throw {A} (e : JsError) : Eff A := λ w, (Throw e, w).

(** [try { m } catch (error) { h error }] *)
Definition try_catch {A} (m : Eff A) (h : JsError → Eff A) : Eff A := λ w,
  match m w with
  | (Normal a, w') => (Normal a, w')
  | (Throw e, w') => h e w'
  end.

(** An evaluation that touches no state. *)
Definition completion {A} (c : Completion A) : Eff A := λ w, (c, w).

Definition read_world : Eff World := λ w, (Normal w, w).

(** [res.status(s).json(b)] *)
Record Response := {
  status : jsval;
  body : json
}.

(** [req.query] of the product list, after the express-validator chain
    ([isInt], [trim]) has looked at it: an integer parameter is absent,
    an integer literal, or something else. *)
Inductive QueryInt := QAbsent | QInt (n : Z) | QOther (raw : string).

Record Query := {
  page : QueryInt;
  limit : QueryInt;
  category : jsval;
  search : jsval
}.

(** The request object: the fields the middleware and handlers read or
    write.  [user] and [resourceUserId] are the ones attached along the
    chain; [authorization] is [req.headers.authorization]. *)
Record Request := {
  authorization : option string;
  user : option Obj;
  resourceUserId : jsval;
  body_ : Obj;
  params : Obj;
  query : Query;
  originalUrl : string
}.

(** [req.user = u] *)
Definition set_user (req : Request) (u : Obj) : Request :=
  {| authorization := authorization req;
     user := Some u;
     resourceUserId := resourceUserId req;
     body_ := body_ req;
     params := params req;
     query := query req;
     originalUrl := originalUrl req |}.

(** What a middleware does with a request: hand it on ([next()]),
    answer it, or hand an error on ([next(error)]). *)
Inductive Outcome :=
| Next (req : Request)
| Respond (res : Response)
| Forward (e : JsError).

(** The envelope [{ success: false, message: msg }]. *)
Definition failure (msg : string) : json :=
  JObject {[ "success" := JV (JBool false); "message" := JV (JStr msg) ]}.

Definition respond (code : Z) (b : json) : Outcome :=
  Respond {| status := JNum code; body := b |}.

(** Reading a property of the response body. *)
Definition body_field (r : Response) (k : string) : option json :=
  match body r with
  | JObject fields => fields !! k
  | _ => None
  end.

End Express.
Import Express.

(* ===================================================================== *)
(** ** The libraries the code calls *)
(* ===================================================================== *)

(** [jsonwebtoken]: [jwt.verify(token, secret)] read at a given clock.  It
    returns the decoded payload or throws; the middleware tells its errors
    apart by [name] only.  The signature scheme itself is not part of this
    repository, so it stays an interface. *)
Class TokenCodec := {
  jwt_verify : string → jsval → Z → Completion Obj
}.

(** The pattern matcher behind [Op.iLike], supplied by the database. *)
Class SqlDialect := {
  ilike : string → string → bool
}.

(** Express and Node under [res.status(code).json(body)] when [code] is
    not a literal of the source: for an integer from 100 to 999 the
    response is sent, for an integer outside that range the call throws
    (an invalid status code).  How other values are coerced or refused
    differs between versions of the libraries and is left open. *)
Class HttpLayer := {
  send_status : jsval → Completion unit;
  send_status_valid : ∀ n, 100 ≤ n ≤ 999 → send_status (JNum n) = Normal tt;
  send_status_invalid : ∀ n,
    (-2147483648 ≤ n < 100 ∨ 999 < n ≤ 2147483647) →
    ∃ e, send_status (JNum n) = Throw e
}.

Module Sequelize.

(** One entry of a [where] object: plain equality, or [{ [Op.iLike]: p }]. *)
Inductive Cond :=
| CEq (v : jsval)
| CILike (pattern : string).

Definition cond_holds `{SqlDialect} (c : Cond) (v : jsval) : bool :=
  match c with
  | CEq x => bool_decide (v = x)
  | CILike p => match v with JStr s => ilike s p | _ => false end
  end.

(** A row is selected when every entry of the [where] object holds. *)
Definition matches `{SqlDialect} (where_ : gmap string Cond) (row : Obj) : bool :=
  bool_decide (map_Forall (λ k c, cond_holds c (get row k) = true) where_).

(** Every query goes to the database and throws what the database throws. *)
Definition db_query {A} (f : World → A) : Eff A := λ w,
  match db_fault w with
  | Some e => (Throw e, w)
  | None => (Normal (f w), w)
  end.

(** [attributes: { exclude: [...] }] *)
Definition exclude_attributes (exclude : list string) (row : Obj) : Obj :=
  foldr delete row exclude.

(** [attributes: [...]] *)
Definition only_attributes (attrs : list string) (row : Obj) : Obj :=
  filter (λ kv, kv.1 ∈ attrs) row.

Definition has_pk (pk : jsval) (row : Obj) : bool :=
  bool_decide (get row "id" = pk).

(** [Model.findByPk(pk, { attributes: { exclude } })]: [null] without a
    query for a [null] or [undefined] key, else the row with that
    primary key, less the excluded attributes.  The rows of a table are
    the records as the model presents them to a lookup without
    [attributes]; which columns those are is the model's declaration. *)
Definition findByPk (table : World → list Obj) (pk : jsval)
    (exclude : list string) : Eff (option Obj) :=
  match pk with
  | JUndefined | JNull => mret None
  | _ => db_query (λ w,
           exclude_attributes exclude <$> List.find (has_pk pk) (table w))
  end.

Definition createdAt (row : Obj) : Z :=
  match get row "createdAt" with JNum t => t | _ => 0 end.

(** [order: [['createdAt', 'DESC']]] *)
Definition newer_first (a b : Obj) : Prop := createdAt b ≤ createdAt a.

#[global] Instance newer_first_dec a b : Decision (newer_first a b).
Proof. unfold newer_first. apply _. Defined.

(** [Model.findAndCountAll({ where, limit, offset, order })]: the count
    of all matching rows and the requested page of them. *)
Definition findAndCountAll `{SqlDialect} (table : World → list Obj)
    (where_ : gmap string Cond) (limit offset : Z) : Eff (Z * list Obj) :=
  db_query (λ w,
    let selected := List.filter (matches where_) (table w) in
    (Z.of_nat (length selected),
     take (Z.to_nat limit) (drop (Z.to_nat offset) (merge_sort newer_first selected)))).

(** [instance.destroy()]: the row leaves its table. *)
Definition destroy_product (row : Obj) : Eff unit := λ w,
  match db_fault w with
  | Some e => (Throw e, w)
  | None =>
      (Normal tt,
       {| env := env w; clock := clock w; users := users w;
          products := List.filter (λ r, negb (has_pk (get row "id") r)) (products w);
          db_fault := db_fault w; console := console w |})
  end.

End Sequelize.
Import Sequelize.

(* ===================================================================== *)
(** ** middleware/auth.js *)
(* ===================================================================== *)

Module Auth.

(** [req.user.prop]; reading through an [undefined] [req.user] throws. *)
Definition req_user_prop (req : Request) (prop : string) : Eff jsval :=
  match user req with
  | Some u => mret (get u prop)
  | None => throw (TypeError_undefined prop)
  end.

(** [!authHeader || !authHeader.startsWith('Bearer ')] *)
Definition no_bearer (authHeader : option string) : bool :=
  match authHeader with
  | None => true
  | Some h => negb (truthy (JStr h)) || negb (startsWith h "Bearer ")
  end.

(** The [catch] block of [authenticate]. *)
Definition authenticate_catch (error : JsError) : Eff Outcome :=
  if strict_eq (err_name error) (JStr "JsonWebTokenError") then
    mret (respond 401 (failure "Invalid token."))
  else if strict_eq (err_name error) (JStr "TokenExpiredError") then
    mret (respond 401 (failure "Token has expired. Please login again."))
  else
    mret (respond 500 (JObject {[ "success" := JV (JBool false);
                                  "message" := JV (JStr "Authentication error.");
                                  "error" := JV (err_message error) ]})).

(** Middleware to verify JWT token and authenticate user. *)
Definition authenticate `{TokenCodec} (req : Request) : Eff Outcome :=
  try_catch
    (let authHeader := authorization req in
     if no_bearer authHeader then
       mret (respond 401 (failure "Authentication required. Please provide a valid token."))
     else
       let token := substring_from 7 (default "" authHeader) in
       w ← read_world;
       decoded ← completion (jwt_verify token (JWT_SECRET (env w)) (clock w));
       user ← findByPk users (get decoded "id") [];
       match user with
       | None => mret (respond 401 (failure "Invalid or inactive user token."))
       | Some u =>
           if negb (truthy (get u "isActive")) then
             mret (respond 401 (failure "Invalid or inactive user token."))
           else
             mret (Next (set_user req u))
       end)
    authenticate_catch.

(** Middleware to check if user has admin role. *)
Definition authorizeAdmin (req : Request) : Eff Outcome :=
  role ← req_user_prop req "role";
  if strict_ne role (JStr "admin") then
    mret (respond 403 (failure "Access denied. Admin privileges required."))
  else
    mret (Next req).

(** [req.resourceUserId || req.body.userId || req.params.userId] *)
Definition resolve_resourceUserId (req : Request) : jsval :=
  js_or (js_or (resourceUserId req) (get (body_ req) "userId"))
        (get (params req) "userId").

(** Middleware to check if user owns the resource or is admin. *)
Definition authorizeOwnerOrAdmin (req : Request) : Eff Outcome :=
  let resourceUserId := resolve_resourceUserId req in
  role ← req_user_prop req "role";
  if strict_eq role (JStr "admin") then mret (Next req)
  else
    id ← req_user_prop req "id";
    if strict_eq id resourceUserId then mret (Next req)
    else mret (respond 403 (failure "Access denied. You can only access your own resources.")).

End Auth.
Import Auth.

(* ===================================================================== *)
(** ** middleware/errorHandler.js *)
(* ===================================================================== *)

Module ErrorHandler.

(** The local [error]: of the copy of [err] only these two properties
    are read. *)
Record error_view := {
  statusCode : jsval;
  message : jsval
}.

(** [console.error('Error:', err)] *)
Definition console_error (err : JsError) : Eff unit := λ w,
  (Normal tt,
   {| env := env w; clock := clock w; users := users w; products := products w;
      db_fault := db_fault w; console := err :: console w |}).

(** [Object.values(err.errors).map(e => e.message)]; [Object.values]
    throws when [err.errors] is missing. *)
Definition error_messages (err : JsError) : Completion (list string) :=
  match err_errors err with
  | Some items => Normal items
  | None => Throw TypeError_not_object
  end.

(** The translation of [err], the reassignments in source order.  Only
    the first can throw. *)
Definition classify (err : JsError) : Completion error_view :=
  let error := {| statusCode := err_statusCode err; message := err_message err |} in
  match
    (if strict_eq (err_name err) (JStr "SequelizeValidationError") then
       match error_messages err with
       | Normal items =>
           let message := join ", " items in
           Normal {| statusCode := JNum 400;
                     message := JStr ("Validation Error: " +:+ message) |}
       | Throw e => Throw e
       end
     else Normal error)
  with
  | Throw e => Throw e
  | Normal error =>
  let error :=
    if strict_eq (err_name err) (JStr "SequelizeUniqueConstraintError") then
      {| statusCode := JNum 409;
         message := JStr "Duplicate entry. This record already exists." |}
    else error in
  let error :=
    if strict_eq (err_name err) (JStr "SequelizeForeignKeyConstraintError") then
      {| statusCode := JNum 400;
         message := JStr "Invalid reference. Related record does not exist." |}
    else error in
  let error :=
    if strict_eq (err_name err) (JStr "JsonWebTokenError") then
      {| statusCode := JNum 401; message := JStr "Invalid token." |}
    else error in
  let error :=
    if strict_eq (err_name err) (JStr "TokenExpiredError") then
      {| statusCode := JNum 401; message := JStr "Token expired." |}
    else error in
  Normal error
  end.

(** The object literal given to [res.json], with its conditional spread
    of [{ stack: err.stack }]. *)
Definition envelope (e : Env) (err : JsError) (error : error_view) : json :=
  let base : gmap string json :=
    {[ "success" := JV (JBool false);
       "message" := JV (js_or (message error) (JStr "Server Error")) ]} in
  JObject (if strict_eq (NODE_ENV e) (JStr "development")
           then <["stack" := JV (err_stack err)]> base
           else base).

(** Global error handling middleware.  The status is whatever
    [error.statusCode || 500] evaluates to, and the call that sends it can
    throw. *)
Definition errorHandler `{HttpLayer} (err : JsError) (req : Request) : Eff Response :=
  _ ← console_error err;
  error ← completion (classify err);
  w ← read_world;
  let code := js_or (statusCode error) (JNum 500) in
  _ ← completion (send_status code);
  mret {| status := code; body := envelope (env w) err error |}.

End ErrorHandler.
Import ErrorHandler.

(* ===================================================================== *)
(** ** routes/v1/products.js and routes/v1/users.js *)
(* ===================================================================== *)

Module Routes.

(** A row as it is serialised. *)
Definition json_of_obj (o : Obj) : gmap string json := JV <$> o.

(** One entry of [errors.array()]; of the keys express-validator fills
    in, those the route itself determines. *)
Definition validation_error (path msg : string) : json :=
  JObject {[ "msg" := JV (JStr msg); "path" := JV (JStr path);
             "location" := JV (JStr "query") ]}.

(** [query(path).optional().isInt({ min, max }).withMessage(msg)] *)
Definition check_int (path msg : string) (lo : Z) (hi : option Z)
    (q : QueryInt) : list json :=
  match q with
  | QAbsent => []
  | QInt n =>
      if (lo <=? n) && from_option (λ h, n <=? h) true hi then []
      else [validation_error path msg]
  | QOther _ => [validation_error path msg]
  end.

(** [validationResult(req)] for the list route. *)
Definition validationResult (req : Request) : list json :=
  check_int "page" "Page must be a positive integer" 1 None (page (query req))
  ++ check_int "limit" "Limit must be between 1 and 100" 1 (Some 100) (limit (query req)).

(** [parseInt(q) || d], for a parameter that passed [isInt] or is absent. *)
Definition parseInt_or (q : QueryInt) (d : Z) : Z :=
  match q with
  | QInt n => if n =? 0 then d else n
  | _ => d
  end.

(** [Math.ceil(a / b)] *)
Definition ceil_div (a b : Z) : Z := - ((- a) / b).

(** The [where] object of the list route, built in source order. *)
Definition build_where (req : Request) (u : Obj) : gmap string Cond :=
  let where_ : gmap string Cond := ∅ in
  let where_ :=
    if truthy (category (query req))
    then <["category" := CEq (category (query req))]> where_ else where_ in
  let where_ :=
    match search (query req) with
    | JStr s => if truthy (JStr s)
                then <["name" := CILike ("%" +:+ s +:+ "%")]> where_ else where_
    | _ => where_
    end in
  (* If user is not admin, only show their own products *)
  let where_ :=
    if strict_ne (get u "role") (JStr "admin")
    then <["userId" := CEq (get u "id")]> where_ else where_ in
  where_.

(** [include: [{ model: User, as: 'owner', attributes: [...] }]] *)
Definition with_owner (w : World) (p : Obj) : json :=
  let owner :=
    match List.find (has_pk (get p "userId")) (users w) with
    | Some o => JObject (json_of_obj (only_attributes ["id"; "username"; "email"] o))
    | None => JV JNull
    end in
  JObject (<["owner" := owner]> (json_of_obj p)).

(** GET /api/v1/products *)
Definition list_products `{SqlDialect} (req : Request) : Eff Outcome :=
  try_catch
    (let errors := validationResult req in
     if negb (bool_decide (errors = [])) then
       mret (respond 400 (JObject {[ "success" := JV (JBool false);
                                     "message" := JV (JStr "Validation failed");
                                     "errors" := JArr errors ]}))
     else
       let page := parseInt_or (page (query req)) 1 in
       let limit := parseInt_or (limit (query req)) 10 in
       let offset := (page - 1) * limit in
       u ← match user req with
           | Some u => mret u
           | None => throw (TypeError_undefined "role")
           end;
       let where_ := build_where req u in
       '(count, products) ← findAndCountAll Express.products where_ limit offset;
       w ← read_world;
       mret (respond 200 (JObject {[
         "success" := JV (JBool true);
         "data" := JObject {[
           "products" := JArr (with_owner w <$> products);
           "pagination" := JObject {[
             "page" := JV (JNum page);
             "limit" := JV (JNum limit);
             "total" := JV (JNum count);
             "pages" := JV (JNum (ceil_div count limit)) ]} ]} ]})))
    (λ error, mret (Forward error)).

(** DELETE /api/v1/products/:id *)
Definition delete_product (req : Request) : Eff Outcome :=
  try_catch
    (product ← findByPk Express.products (get (params req) "id") [];
     match product with
     | None => mret (respond 404 (failure "Product not found"))
     | Some product =>
         (* Check if user owns the product or is admin *)
         role ← req_user_prop req "role";
         denied ← (if strict_ne role (JStr "admin")
                   then id ← req_user_prop req "id";
                        mret (strict_ne (get product "userId") id)
                   else mret false);
         if denied : bool then
           mret (respond 403 (failure "Access denied. You can only delete your own products."))
         else
           _ ← destroy_product product;
           mret (respond 200 (JObject {[
             "success" := JV (JBool true);
             "message" := JV (JStr "Product deleted successfully") ]}))
     end)
    (λ error, mret (Forward error)).

(** [include: [{ model: Product, as: 'products', attributes: [...] }]] *)
Definition with_products (w : World) (u : Obj) : json :=
  let owned := List.filter (λ p, bool_decide (get p "userId" = get u "id")) (Express.products w) in
  JObject (<["products" :=
              JArr ((λ p, JObject (json_of_obj
                       (only_attributes ["id"; "name"; "price"; "stock"; "category"] p)))
                    <$> owned)]> (json_of_obj u)).

(** GET /api/v1/users/:id, behind [authorizeAdmin]. *)
Definition get_user (req : Request) : Eff Outcome :=
  try_catch
    (user ← findByPk users (get (params req) "id") ["password"];
     match user with
     | None => mret (respond 404 (failure "User not found"))
     | Some user =>
         w ← read_world;
         mret (respond 200 (JObject {[
           "success" := JV (JBool true);
           "data" := JObject {[ "user" := with_products w user ]} ]}))
     end)
    (λ error, mret (Forward error)).

End Routes.
Import Routes.

(* ===================================================================== *)
(** ** server.js: the chain of a route *)
(* ===================================================================== *)

Module Server.

Definition Middleware : Type := Request → Eff Outcome.

(** The 404 handler mounted after the routers. *)
Definition not_found (req : Request) : Response :=
  {| status := JNum 404;
     body := JObject {[ "success" := JV (JBool false);
                        "message" := JV (JStr "Route not found");
                        "path" := JV (JStr (originalUrl req)) ]} |}.

(** Express runs the stack in order.  [next()] moves on, a response ends
    the request, and [next(error)] (or an exception thrown by the
    middleware) goes to the error handler mounted last.  When the error
    handler itself throws, the chain gives no response of its own: the
    result is that [Throw]. *)
Fixpoint run_chain `{HttpLayer} (chain : list Middleware) (req : Request) : Eff Response :=
  match chain with
  | [] => mret (not_found req)
  | mw :: rest =>
      o ← try_catch (mw req) (λ e, mret (Forward e));
      match o with
      | Next req' => run_chain rest req'
      | Respond res => mret res
      | Forward e => errorHandler e req
      end
  end.

(** [router.use(authenticate)] and the product routes. *)
Definition products_list_route `{TokenCodec} `{SqlDialect} : list Middleware :=
  [authenticate; list_products].
Definition products_delete_route `{TokenCodec} : list Middleware :=
  [authenticate; delete_product].
(** [router.get('/:id', authorizeAdmin, ...)] of the user routes. *)
Definition users_get_route `{TokenCodec} : list Middleware :=
  [authenticate; authorizeAdmin; get_user].

End Server.
Import Server.

(* ===================================================================== *)
(** ** Sample data *)
(* ===================================================================== *)

Module Fixture.

Definition an_error (name msg : string) : JsError :=
  {| err_name := JStr name;
     err_message := JStr msg;
     err_statusCode := JUndefined;
     err_stack := JStr (name +:+ ": " +:+ msg);
     err_errors := None |}.

(** An HTTP layer that sends for an integer from 100 to 999 and throws a
    RangeError for anything else. *)
Definition range_checked (code : jsval) : Completion unit :=
  match code with
  | JNum n =>
      if (100 <=? n) && (n <=? 999) then Normal tt
      else Throw (an_error "RangeError" "Invalid status code")
  | _ => Throw (an_error "RangeError" "Invalid status code")
  end.

Definition http : HttpLayer.
Proof.
  refine {| send_status := range_checked |}.
  - intros n [Hlo Hhi]. unfold range_checked.
    apply Z.leb_le in Hlo, Hhi. rewrite Hlo, Hhi. reflexivity.
  - intros n Hn. unfold range_checked. eexists.
    destruct (100 <=? n) eqn:Hlo; [|reflexivity].
    destruct (n <=? 999) eqn:Hhi; [|reflexivity].
    apply Z.leb_le in Hlo, Hhi. lia.
Defined.

(** A codec that knows a handful of tokens by heart.  Two of them name
    the same subject and differ in an extra role claim. *)
Definition table_verify (token : string) (secret : jsval) (now : Z) : Completion Obj :=
  if negb (strict_eq secret (JStr "s3cret")) then
    Throw (an_error "JsonWebTokenError" "invalid signature")
  else if String.eqb token "alice" then
    Normal {[ "id" := JStr "u1"; "role" := JStr "user" ]}
  else if String.eqb token "alice-claims-admin" then
    Normal {[ "id" := JStr "u1"; "role" := JStr "admin" ]}
  else if String.eqb token "bob" then Normal {[ "id" := JStr "u2" ]}
  else if String.eqb token "root" then Normal {[ "id" := JStr "a1" ]}
  else if String.eqb token "ghost" then Normal {[ "id" := JStr "u9" ]}
  else if String.eqb token "old" then
    Throw (an_error "TokenExpiredError" "jwt expired")
  else Throw (an_error "JsonWebTokenError" "jwt malformed").

Definition codec : TokenCodec := {| jwt_verify := table_verify |}.

(** A matcher good enough for the samples: every pattern matches. *)
Definition dialect : SqlDialect := {| ilike := λ _ _, true |}.

Definition account (id name role : string) (active : bool) : Obj :=
  {[ "id" := JStr id; "username" := JStr name;
     "email" := JStr (name +:+ "@primetrade.com");
     "password" := JStr ("$2b$10$" +:+ name);
     "role" := JStr role; "isActive" := JBool active ]}.

Definition alice : Obj := account "u1" "alice" "user" true.
Definition bob : Obj := account "u2" "bob" "user" false.
Definition root : Obj := account "a1" "root" "admin" true.

Definition product (id name owner : string) (created : Z) : Obj :=
  {[ "id" := JStr id; "name" := JStr name; "category" := JStr "Electronics";
     "userId" := JStr owner; "createdAt" := JNum created ]}.

Definition world : World :=
  {| env := {| JWT_SECRET := JStr "s3cret"; NODE_ENV := JStr "production" |};
     clock := 1000;
     users := [alice; bob; root];
     products := [product "p1" "Laptop Pro 15" "u1" 10;
                  product "p2" "4K Monitor" "a1" 20];
     db_fault := None;
     console := [] |}.

Definition no_query : Query :=
  {| page := QAbsent; limit := QAbsent; category := JUndefined; search := JUndefined |}.

(** A request with the given [Authorization] header and nothing else. *)
Definition request (auth : option string) : Request :=
  {| authorization := auth; user := None; resourceUserId := JUndefined;
     body_ := ∅; params := ∅; query := no_query;
     originalUrl := "/api/v1/products" |}.

(** A request already past [authenticate] as [u], about a resource whose
    owner the handler attached. *)
Definition request_as (u : Obj) (owner : jsval) : Request :=
  {| authorization := None; user := Some u; resourceUserId := owner;
     body_ := ∅; params := ∅; query := no_query;
     originalUrl := "/api/v1/products" |}.

(** An error of the database driver: no [statusCode], a message of its own. *)
Definition connection_refused : JsError :=
  an_error "SequelizeConnectionRefusedError" "connect ECONNREFUSED 127.0.0.1:5432".


(** A request as [alice] with nothing attached by a handler, a body that
    says [{ "userId": "" }] and [alice]'s own id as the path parameter. *)
Definition request_empty_owner : Request :=
  {| authorization := None; user := Some alice; resourceUserId := JUndefined;
     body_ := {[ "userId" := JStr "" ]}; params := {[ "userId" := JStr "u1" ]};
     query := no_query; originalUrl := "/api/v1/products" |}.

(** The same world with the database unreachable. *)
Definition world_offline : World :=
  {| env := env world; clock := clock world; users := users world;
     products := products world; db_fault := Some connection_refused;
     console := [] |}.

(** What the list route answers [alice] and [root]. *)
Definition listing_for (u : Obj) : Response :=
  match (@list_products dialect (request_as u JUndefined) world).1 with
  | Normal (Respond res) => res
  | _ => {| status := JUndefined; body := JV JUndefined |}
  end.

End Fixture.

(* ===================================================================== *)
(** ** Vocabulary of the statements *)
(* ===================================================================== *)

Module Statements.

(** The responses the middleware and the handlers give. *)
Definition forbidden_own_resources : Response :=
  {| status := JNum 403;
     body := failure "Access denied. You can only access your own resources." |}.

Definition forbidden_delete : Response :=
  {| status := JNum 403;
     body := failure "Access denied. You can only delete your own products." |}.

Definition deleted : Response :=
  {| status := JNum 200;
     body := JObject {[ "success" := JV (JBool true);
                        "message" := JV (JStr "Product deleted successfully") ]} |}.

Definition unauthenticated_no_header : Response :=
  {| status := JNum 401;
     body := failure "Authentication required. Please provide a valid token." |}.

Definition unauthenticated_account : Response :=
  {| status := JNum 401; body := failure "Invalid or inactive user token." |}.

Definition unauthenticated_invalid : Response :=
  {| status := JNum 401; body := failure "Invalid token." |}.

Definition unauthenticated_expired : Response :=
  {| status := JNum 401; body := failure "Token has expired. Please login again." |}.

Definition authentication_error (error : JsError) : Response :=
  {| status := JNum 500;
     body := JObject {[ "success" := JV (JBool false);
                        "message" := JV (JStr "Authentication error.");
                        "error" := JV (err_message error) ]} |}.

(** The header [Authorization: Bearer <token>]. *)
Definition bearer (token : string) : option string := Some ("Bearer " +:+ token).

(** The store lookup of [authenticate] for a decoded payload. *)
Definition lookup_account (decoded : Obj) : Eff (option Obj) :=
  findByPk users (get decoded "id") [].

(** The account a run of [authenticate] resolved, as downstream code
    identifies it, and the response it gave instead. *)
Definition resolved_identity (r : Completion Outcome * World) : option (jsval * jsval) :=
  match r.1 with
  | Normal (Next req') => (λ u, (get u "id", get u "role")) <$> user req'
  | _ => None
  end.

Definition rejection (r : Completion Outcome * World) : option Response :=
  match r.1 with
  | Normal (Respond res) => Some res
  | _ => None
  end.

(** [req.user.password], as a handler behind [authenticate] can read it. *)
Definition context_password (req : Request) : option jsval :=
  user req ≫= (λ u, u !! "password").

(** The five answers [authenticate] composes at its own call sites. *)
Inductive authenticate_answer : Response → Prop :=
| answer_no_header : authenticate_answer unauthenticated_no_header
| answer_account : authenticate_answer unauthenticated_account
| answer_invalid : authenticate_answer unauthenticated_invalid
| answer_expired : authenticate_answer unauthenticated_expired
| answer_error (e : JsError) : authenticate_answer (authentication_error e).

Definition forbidden_admin : Response :=
  {| status := JNum 403; body := failure "Access denied. Admin privileges required." |}.

(** Reading a property of a serialised object. *)
Definition json_field (j : json) (k : string) : option json :=
  match j with
  | JObject fields => fields !! k
  | _ => None
  end.

(** A result of a chain is formatted by the error handler when it is what
    [errorHandler] leaves, response and console entry, for some error. *)
Definition formatted_by_normalizer `{HttpLayer} (req : Request) (w : World)
    (out : Completion Response * World) : Prop :=
  ∃ err : JsError, out = errorHandler err req w.

(** The same request under another [Authorization] header. *)
Definition with_authorization (req : Request) (h : option string) : Request :=
  {| authorization := h;
     user := user req;
     resourceUserId := resourceUserId req;
     body_ := body_ req;
     params := params req;
     query := query req;
     originalUrl := originalUrl req |}.



(** The specification's reading of the owner id, to set against
    [resolve_resourceUserId]: of the three locations, the first that is
    present, with "present" taken as "not [undefined]". *)
Definition present (v : jsval) : bool := bool_decide (v ≠ JUndefined).

Definition first_present_owner_id (req : Request) : jsval :=
  if present (resourceUserId req) then resourceUserId req
  else if present (get (body_ req) "userId") then get (body_ req) "userId"
  else get (params req) "userId".

(** [p.k] on a serialised object: a missing property reads as [undefined]. *)
Definition json_get (j : json) (k : string) : json :=
  default (JV JUndefined) (json_field j k).

(** [data.products] of a response. *)
Definition response_products (res : Response) : list json :=
  match body_field res "data" ≫= (λ d, json_field d "products") with
  | Some (JArr ps) => ps
  | _ => []
  end.

(** The page of rows the list route asks the database for. *)
Definition listed_rows `{SqlDialect} (req : Request) (u : Obj) (w : World) : list Obj :=
  let page := parseInt_or (page (query req)) 1 in
  let limit := parseInt_or (limit (query req)) 10 in
  take (Z.to_nat limit)
    (drop (Z.to_nat ((page - 1) * limit))
       (merge_sort newer_first
          (List.filter (matches (build_where req u)) (products w)))).

(** [data.user] of a response. *)
Definition response_user (res : Response) : option json :=
  body_field res "data" ≫= (λ d, json_field d "user").

End Statements.
Import Statements.

(* ===================================================================== *)
(** ** routes/v1/products.js: the routes of a single product *)
(* ===================================================================== *)

(** The express-validator chains on the body of POST and PUT.  Each
    chain names one body field ([name], [description], [price], [stock],
    [category]) and sees no other; what [validationResult(req).array()]
    holds is a function of those five values.  The library's own checks
    ([isLength], [isFloat], [isInt]) stay an interface. *)
Class BodyValidators := {
  post_checks : jsval → jsval → jsval → jsval → jsval → list json;
  put_checks : jsval → jsval → jsval → jsval → jsval → list json
}.

(** The writes of the product model: [Product.create(data)], and
    [product.update(values)] followed by [product.reload()].  What they
    store beyond what they are given (ids, timestamps, defaults) is the
    model's business. *)
Class ProductWrites := {
  Product_create : Obj → Eff Obj;
  Product_update : Obj → Obj → Eff Obj
}.

Module ItemRoutes.

(** [validationResult(req)] of a body chain. *)
Definition body_errors (checks : jsval → jsval → jsval → jsval → jsval → list json)
    (req : Request) : list json :=
  checks (get (body_ req) "name") (get (body_ req) "description")
         (get (body_ req) "price") (get (body_ req) "stock")
         (get (body_ req) "category").

Definition validation_failed (errors : list json) : Outcome :=
  respond 400 (JObject {[ "success" := JV (JBool false);
                          "message" := JV (JStr "Validation failed");
                          "errors" := JArr errors ]}).

(** [req.user.role !== 'admin' && product.userId !== req.user.id] *)
Definition not_owner_nor_admin (req : Request) (product : Obj) : Eff bool :=
  role ← req_user_prop req "role";
  if strict_ne role (JStr "admin")
  then id ← req_user_prop req "id";
       mret (strict_ne (get product "userId") id)
  else mret false.

(** GET /api/v1/products/:id *)
Definition get_product (req : Request) : Eff Outcome :=
  try_catch
    (product ← findByPk Express.products (get (params req) "id") [];
     match product with
     | None => mret (respond 404 (failure "Product not found"))
     | Some product =>
         (* Check if user owns the product or is admin *)
         denied ← not_owner_nor_admin req product;
         if denied : bool then
           mret (respond 403 (failure "Access denied. You can only view your own products."))
         else
           w ← read_world;
           mret (respond 200 (JObject {[
             "success" := JV (JBool true);
             "data" := JObject {[ "product" := with_owner w product ]} ]}))
     end)
    (λ error, mret (Forward error)).

(** POST /api/v1/products *)
Definition create_product `{BodyValidators} `{ProductWrites} (req : Request) : Eff Outcome :=
  try_catch
    (let errors := body_errors post_checks req in
     if negb (bool_decide (errors = [])) then mret (validation_failed errors)
     else
       id ← req_user_prop req "id";
       let productData := <["userId" := id]> (body_ req) in
       product ← Product_create productData;
       mret (respond 201 (JObject {[
         "success" := JV (JBool true);
         "message" := JV (JStr "Product created successfully");
         "data" := JObject {[ "product" := JObject (json_of_obj product) ]} ]})))
    (λ error, mret (Forward error)).

(** PUT /api/v1/products/:id *)
Definition update_product `{BodyValidators} `{ProductWrites} (req : Request) : Eff Outcome :=
  try_catch
    (let errors := body_errors put_checks req in
     if negb (bool_decide (errors = [])) then mret (validation_failed errors)
     else
       product ← findByPk Express.products (get (params req) "id") [];
       match product with
       | None => mret (respond 404 (failure "Product not found"))
       | Some product =>
           (* Check if user owns the product or is admin *)
           denied ← not_owner_nor_admin req product;
           if denied : bool then
             mret (respond 403 (failure "Access denied. You can only update your own products."))
           else
             product ← Product_update product (body_ req);
             mret (respond 200 (JObject {[
               "success" := JV (JBool true);
               "message" := JV (JStr "Product updated successfully");
               "data" := JObject {[ "product" := JObject (json_of_obj product) ]} ]}))
       end)
    (λ error, mret (Forward error)).

(** [router.use(authenticate)] in front of the single-product routes, and
    in front of a path no route of the router matches. *)
Definition products_get_route `{TokenCodec} : list Middleware :=
  [authenticate; get_product].
Definition products_unmatched_route `{TokenCodec} : list Middleware :=
  [authenticate].

End ItemRoutes.
Import ItemRoutes.

Module Observations.

Definition not_found_product : Response :=
  {| status := JNum 404; body := failure "Product not found" |}.

Definition forbidden_view : Response :=
  {| status := JNum 403;
     body := failure "Access denied. You can only view your own products." |}.

Definition forbidden_update : Response :=
  {| status := JNum 403;
     body := failure "Access denied. You can only update your own products." |}.

(** Everything of the process but the console is as it was. *)
Definition same_but_console (w w' : World) : Prop :=
  env w' = env w ∧ clock w' = clock w ∧ users w' = users w
  ∧ products w' = products w ∧ db_fault w' = db_fault w.

(** The console is as it was, or has one more entry. *)
Definition at_most_one_logged (w w' : World) : Prop :=
  console w' = console w ∨ ∃ e, console w' = e :: console w.

(** [data.pagination.k] and [data.product] of a response. *)
Definition response_pagination (res : Response) (k : string) : option json :=
  body_field res "data" ≫= (λ d, json_field d "pagination" ≫= (λ p, json_field p k)).

Definition response_product (res : Response) : option json :=
  body_field res "data" ≫= (λ d, json_field d "product").

(** The same request with another body. *)
Definition with_body (req : Request) (b : Obj) : Request :=
  {| authorization := authorization req;
     user := user req;
     resourceUserId := resourceUserId req;
     body_ := b;
     params := params req;
     query := query req;
     originalUrl := originalUrl req |}.

(** The rows the [where] object of the list route selects, over all pages. *)
Definition selected_rows `{SqlDialect} (req : Request) (u : Obj) (w : World) : list Obj :=
  List.filter (matches (build_where req u)) (products w).

(** The [limit] the list route asks for. *)
Definition page_size (req : Request) : Z := parseInt_or (limit (query req)) 10.

(** A middleware that leaves the process as it found it. *)
Definition quiet (mw : Middleware) : Prop := ∀ req w, (mw req w).2 = w.

(** The 200 answer of GET /products/:id for a product. *)
Definition product_found (w : World) (product : Obj) : Response :=
  {| status := JNum 200;
     body := JObject {[ "success" := JV (JBool true);
                        "data" := JObject {[ "product" := with_owner w product ]} ]} |}.

(** The 201 answer of POST /products for the created product. *)
Definition product_created (product : Obj) : Response :=
  {| status := JNum 201;
     body := JObject {[
       "success" := JV (JBool true);
       "message" := JV (JStr "Product created successfully");
       "data" := JObject {[ "product" := JObject (json_of_obj product) ]} ]} |}.

(** What the owner of a serialised product may show: nothing, or an
    object with no property beyond [id], [username] and [email]. *)
Definition owner_summary (o : json) : Prop :=
  o = JV JNull
  ∨ ∃ fields, o = JObject fields
              ∧ ∀ k, is_Some (fields !! k) → k ∈ ["id"; "username"; "email"].

End Observations.
Import Observations.

Module Samples.

(** Validators that accept every body, and a model that stores what it
    is given. *)
Definition lenient : BodyValidators :=
  {| post_checks := λ _ _ _ _ _, []; put_checks := λ _ _ _ _ _, [] |}.

Definition store_as_given : ProductWrites :=
  {| Product_create := λ data w,
       (Normal data,
        {| env := env w; clock := clock w; users := users w;
           products := data :: products w;
           db_fault := db_fault w; console := console w |});
     Product_update := λ row values w, (Normal (values ∪ row), w) |}.

(** Validators in the manner of the route's chains, on the values of
    this model: a name of 1 to 200 characters, a price that is a number
    of at least 0, an optional stock that is an integer of at least 0, an
    optional category of at most 100 characters. *)
Definition body_error (path msg : string) : json :=
  JObject {[ "msg" := JV (JStr msg); "path" := JV (JStr path);
             "location" := JV (JStr "body") ]}.

Definition check_name (optional : bool) (v : jsval) : list json :=
  match v with
  | JUndefined =>
      if optional then []
      else [body_error "name" "Product name must be between 1 and 200 characters"]
  | JStr s =>
      if (1 <=? String.length s)%nat && (String.length s <=? 200)%nat then []
      else [body_error "name" "Product name must be between 1 and 200 characters"]
  | _ => [body_error "name" "Product name must be between 1 and 200 characters"]
  end.

Definition check_price (optional : bool) (v : jsval) : list json :=
  match v with
  | JUndefined =>
      if optional then [] else [body_error "price" "Price must be a positive number"]
  | JNum n =>
      if 0 <=? n then [] else [body_error "price" "Price must be a positive number"]
  | _ => [body_error "price" "Price must be a positive number"]
  end.

Definition check_stock (v : jsval) : list json :=
  match v with
  | JUndefined => []
  | JNum n =>
      if 0 <=? n then [] else [body_error "stock" "Stock must be a non-negative integer"]
  | _ => [body_error "stock" "Stock must be a non-negative integer"]
  end.

Definition check_category (v : jsval) : list json :=
  match v with
  | JUndefined => []
  | JStr s =>
      if (String.length s <=? 100)%nat then []
      else [body_error "category" "Invalid value"]
  | _ => [body_error "category" "Invalid value"]
  end.

Definition checked : BodyValidators :=
  {| post_checks := λ name description price stock category,
       check_name false name ++ check_price false price
       ++ check_stock stock ++ check_category category;
     put_checks := λ name description price stock category,
       check_name true name ++ check_price true price
       ++ check_stock stock ++ check_category category |}.

(** A body that names another account as the owner. *)
Definition desk_for_root : Obj :=
  {[ "name" := JStr "Desk"; "price" := JNum 120; "userId" := JStr "a1" ]}.

(** [alice] asking for the product with the given id. *)
Definition item_request (u : Obj) (id : string) : Request :=
  {| authorization := None; user := Some u; resourceUserId := JUndefined;
     body_ := ∅; params := {[ "id" := JStr id ]}; query := Fixture.no_query;
     originalUrl := "/api/v1/products/" +:+ id |}.

(** A request as [u] with the given body. *)
Definition body_request (u : Obj) (b : Obj) : Request :=
  {| authorization := None; user := Some u; resourceUserId := JUndefined;
     body_ := b; params := ∅; query := Fixture.no_query;
     originalUrl := "/api/v1/products" |}.


(** A request with no [req.user]: a gate mounted without [authenticate]. *)
Definition anonymous : Request := Fixture.request None.

(** What GET /users/:id answers [root] about [alice]. *)
Definition user_page : Response :=
  match (get_user (item_request Fixture.root "u1") Fixture.world).1 with
  | Normal (Respond res) => res
  | _ => {| status := JUndefined; body := JV JUndefined |}
  end.

(** A list request with the given [page] and [limit]. *)
Definition list_request (u : Obj) (p l : QueryInt) : Request :=
  {| authorization := None; user := Some u; resourceUserId := JUndefined;
     body_ := ∅; params := ∅;
     query := {| page := p; limit := l; category := JUndefined; search := JUndefined |};
     originalUrl := "/api/v1/products" |}.

End Samples.

(* ===================================================================== *)
(** ** Basic facts about values and effects *)
(* ===================================================================== *)

(** Unfolds the monad down to functions on worlds. *)
Ltac eff :=
  unfold mbind, mret, Eff_bind, Eff_ret, try_catch, throw, completion,
    read_world, respond in *; simpl in *.

Lemma strict_eq_true_iff (a b : jsval) :
  strict_eq a b = true → a = b.
Proof.
  destruct a, b; simpl; try discriminate; try reflexivity; intros E.
  - apply Bool.eqb_prop in E. congruence.
  - apply Z.eqb_eq in E. congruence.
  - apply String.eqb_eq in E. congruence.
  - apply Nat.eqb_eq in E. congruence.
Qed.

Lemma strict_eq_ne (a b : jsval) : a ≠ b → strict_eq a b = false.
Proof.
  intros Hne. destruct (strict_eq a b) eqn:E; [|reflexivity].
  apply strict_eq_true_iff in E. contradiction.
Qed.

Lemma req_user_prop_some (req : Request) (u : Obj) (prop : string) (w : World) :
  user req = Some u → req_user_prop req prop w = (Normal (get u prop), w).
Proof. intros Hu. unfold req_user_prop. rewrite Hu. reflexivity. Qed.

(* ===================================================================== *)
(** ** The ownership gate *)
(* ===================================================================== *)

Lemma authorizeOwnerOrAdmin_admin (req : Request) (u : Obj) (w : World) :
  user req = Some u → get u "role" = JStr "admin" →
  authorizeOwnerOrAdmin req w = (Normal (Next req), w).
Proof.
  intros Hu Hrole. unfold authorizeOwnerOrAdmin. eff.
  rewrite (req_user_prop_some req u "role" w Hu), Hrole. reflexivity.
Qed.

Lemma authorizeOwnerOrAdmin_stranger (req : Request) (u : Obj) (w : World) :
  user req = Some u → get u "role" = JStr "user" →
  get u "id" ≠ resolve_resourceUserId req →
  authorizeOwnerOrAdmin req w = (Normal (Respond forbidden_own_resources), w).
Proof.
  intros Hu Hrole Hne. unfold authorizeOwnerOrAdmin. eff.
  rewrite (req_user_prop_some req u "role" w Hu), Hrole. simpl.
  rewrite (req_user_prop_some req u "id" w Hu).
  rewrite (strict_eq_ne _ _ Hne). reflexivity.
Qed.



Lemma findByPk_some_inv (table : World → list Obj) (pk : jsval)
    (exclude : list string) (w w' : World) (row : Obj) :
  findByPk table pk exclude w = (Normal (Some row), w') →
  db_fault w = None ∧ w' = w.
Proof.
  unfold findByPk, db_query.
  destruct pk; eff; try (intros [=]; fail);
    destruct (db_fault w); intros [=]; subst; auto.
Qed.

(** The check written out in the DELETE handler is the same gate: a
    stranger of role [user] is answered 403 and the product stays, an
    [admin] gets the product destroyed whoever owns it. *)
Lemma delete_product_gate (req : Request) (u product : Obj) (w : World) :
  user req = Some u →
  findByPk products (get (params req) "id") [] w = (Normal (Some product), w) →
  (get u "role" = JStr "user" → get product "userId" ≠ get u "id" →
     delete_product req w = (Normal (Respond forbidden_delete), w))
  ∧ (get u "role" = JStr "admin" →
     ∃ w', delete_product req w = (Normal (Respond deleted), w')
           ∧ products w'
             = List.filter (λ r, negb (has_pk (get product "id") r)) (products w)).
Proof.
  intros Hu Hfind.
  destruct (findByPk_some_inv _ _ _ _ _ _ Hfind) as [Hdb _].
  split.
  - intros Hrole Hne. unfold delete_product. eff. rewrite Hfind.
    rewrite (req_user_prop_some req u "role" w Hu), Hrole. simpl.
    rewrite (req_user_prop_some req u "id" w Hu).
    unfold strict_ne. rewrite (strict_eq_ne _ _ Hne). reflexivity.
  - intros Hrole. unfold delete_product. eff. rewrite Hfind.
    rewrite (req_user_prop_some req u "role" w Hu), Hrole. simpl.
    unfold destroy_product. rewrite Hdb. eexists. split; reflexivity.
Qed.

Section OwnershipGate.
Context `{HttpLayer}.

(** C1. In an authenticated context, an account of role [user] whose id
    differs from the resource's owning-account-id is answered 403 by the
    ownership gate, whatever follows in the chain is not run and the state
    is left as it was; an account of role [admin] is handed on to the rest
    of the chain whatever the owning-account-id is.  The same holds of the
    check the DELETE route of the products writes out for itself. *)
Theorem C1_ownership_gate (req : Request) (u : Obj) (w : World)
    (rest : list Middleware) :
  user req = Some u →
  (get u "role" = JStr "user" → get u "id" ≠ resolve_resourceUserId req →
     authorizeOwnerOrAdmin req w = (Normal (Respond forbidden_own_resources), w)
     ∧ run_chain (authorizeOwnerOrAdmin :: rest) req w
       = (Normal forbidden_own_resources, w))
  ∧ (get u "role" = JStr "admin" →
     authorizeOwnerOrAdmin req w = (Normal (Next req), w)
     ∧ run_chain (authorizeOwnerOrAdmin :: rest) req w = run_chain rest req w)
  ∧ (∀ product,
       findByPk products (get (params req) "id") [] w = (Normal (Some product), w) →
       (get u "role" = JStr "user" → get product "userId" ≠ get u "id" →
          delete_product req w = (Normal (Respond forbidden_delete), w))
       ∧ (get u "role" = JStr "admin" →
          ∃ w', delete_product req w = (Normal (Respond deleted), w')
                ∧ products w'
                  = List.filter (λ r, negb (has_pk (get product "id") r)) (products w))).
Proof.
  intros Hu. split; [|split].
  - intros Hrole Hne.
    pose proof (authorizeOwnerOrAdmin_stranger req u w Hu Hrole Hne) as E.
    split; [exact E|]. simpl. eff. rewrite E. reflexivity.
  - intros Hrole.
    pose proof (authorizeOwnerOrAdmin_admin req u w Hu Hrole) as E.
    split; [exact E|]. simpl. eff. rewrite E. reflexivity.
  - intros product Hfind. exact (delete_product_gate req u product w Hu Hfind).
Qed.

End OwnershipGate.

Lemma C1_ownership_gate_witness :
  authorizeOwnerOrAdmin (Fixture.request_as Fixture.alice (JStr "a1")) Fixture.world
  = (Normal (Respond forbidden_own_resources), Fixture.world)
  ∧ authorizeOwnerOrAdmin (Fixture.request_as Fixture.root (JStr "u1")) Fixture.world
    = (Normal (Next (Fixture.request_as Fixture.root (JStr "u1"))), Fixture.world).
Proof.
  split.
  - destruct (@C1_ownership_gate Fixture.http (Fixture.request_as Fixture.alice (JStr "a1"))
                Fixture.alice Fixture.world [] eq_refl) as [Huser _].
    apply Huser; [reflexivity | discriminate].
  - destruct (@C1_ownership_gate Fixture.http (Fixture.request_as Fixture.root (JStr "u1"))
                Fixture.root Fixture.world [] eq_refl) as (_ & Hadmin & _).
    apply Hadmin. reflexivity.
Defined.

(* ===================================================================== *)
(** ** Authentication *)
(* ===================================================================== *)

Lemma bearer_accepted (token : string) :
  no_bearer (bearer token) = false
  ∧ substring_from 7 (default "" (bearer token)) = token.
Proof.
  split; [|reflexivity]. unfold no_bearer, bearer, startsWith. simpl.
  destruct token; reflexivity.
Qed.

(** Lookups read the tables and change nothing. *)
Lemma findByPk_readonly (table : World → list Obj) (pk : jsval)
    (exclude : list string) (w : World) :
  (findByPk table pk exclude w).2 = w.
Proof.
  unfold findByPk, db_query. destruct pk; eff; try reflexivity;
    destruct (db_fault w); reflexivity.
Qed.

(** Without [exclude], a lookup returns a row of the table as it is stored. *)
Lemma findByPk_stored (table : World → list Obj) (pk : jsval) (w w' : World)
    (row : Obj) :
  findByPk table pk [] w = (Normal (Some row), w') →
  row ∈ table w ∧ get row "id" = pk.
Proof.
  unfold findByPk, db_query.
  destruct pk; eff; try (intros [=]; fail);
    (destruct (db_fault w); [intros [=]|]);
    (destruct (List.find _ (table w)) as [found|] eqn:Hfind; simpl; intros [=]; subst);
    apply find_some in Hfind as [Hin Hpk];
    (split; [by apply list_elem_of_In | unfold has_pk in Hpk; by apply bool_decide_eq_true in Hpk]).
Qed.

Lemma authenticate_catch_answers (e : JsError) (w : World) :
  ∃ res, authenticate_answer res
         ∧ authenticate_catch e w = (Normal (Respond res), w).
Proof.
  unfold authenticate_catch.
  destruct (strict_eq (err_name e) (JStr "JsonWebTokenError")).
  { exists unauthenticated_invalid. split; [constructor | reflexivity]. }
  destruct (strict_eq (err_name e) (JStr "TokenExpiredError")).
  { exists unauthenticated_expired. split; [constructor | reflexivity]. }
  exists (authentication_error e). split; [constructor | reflexivity].
Qed.

(** Whether it answers or throws, the error handler has logged the error,
    once, and changed nothing else. *)
Lemma errorHandler_logs `{HttpLayer} (e : JsError) (req : Request) (w : World) :
  same_but_console w (errorHandler e req w).2
  ∧ console (errorHandler e req w).2 = e :: console w.
Proof.
  unfold errorHandler, console_error. eff.
  destruct (classify e) as [error|thrown]; simpl; [|repeat split].
  destruct (send_status _); simpl; repeat split.
Qed.

Section Authenticate.
Context `{TokenCodec} `{HttpLayer}.

(** Every run of [authenticate] ends in one of two ways, with the state
    as it found it: the request is handed on with a stored, active account
    attached, or it is answered on the spot with one of the five answers. *)
Lemma authenticate_cases (req : Request) (w : World) :
  (∃ u, u ∈ users w ∧ truthy (get u "isActive") = true
        ∧ authenticate req w = (Normal (Next (set_user req u)), w))
  ∨ (∃ res, authenticate_answer res
            ∧ authenticate req w = (Normal (Respond res), w)).
Proof.
  unfold authenticate. cbv zeta.
  destruct (no_bearer (authorization req)) eqn:Hnb; eff.
  { right. exists unauthenticated_no_header. split; [constructor | reflexivity]. }
  destruct (jwt_verify _ _ _) as [decoded|e].
  2:{ right. apply authenticate_catch_answers. }
  pose proof (findByPk_readonly users (get decoded "id") [] w) as Hw.
  destruct (findByPk users (get decoded "id") [] w) as [[[u|]|e] w'] eqn:Hfind;
    simpl in Hw; subst w'.
  - destruct (truthy (get u "isActive")) eqn:Hact; simpl.
    + left. exists u. apply findByPk_stored in Hfind as [Hin _]. auto.
    + right. exists unauthenticated_account. split; [constructor | reflexivity].
  - right. exists unauthenticated_account. split; [constructor | reflexivity].
  - right. apply authenticate_catch_answers.
Qed.

(** [authenticate] up to the store lookup, for a header that carries a
    token the codec accepts. *)
Lemma authenticate_verified (req : Request) (w : World) (token : string)
    (decoded : Obj) :
  authorization req = bearer token →
  jwt_verify token (JWT_SECRET (env w)) (clock w) = Normal decoded →
  authenticate req w =
    match lookup_account decoded w with
    | (Normal None, w') => (Normal (Respond unauthenticated_account), w')
    | (Normal (Some u), w') =>
        if truthy (get u "isActive")
        then (Normal (Next (set_user req u)), w')
        else (Normal (Respond unauthenticated_account), w')
    | (Throw e, w') => authenticate_catch e w'
    end.
Proof.
  intros Hh Hv. unfold authenticate, lookup_account. cbv zeta. rewrite Hh.
  destruct (bearer_accepted token) as [-> ->]. eff. rewrite Hv.
  destruct (findByPk users (get decoded "id") [] w) as [[[u|]|e] w']; try reflexivity.
  destruct (truthy (get u "isActive")); reflexivity.
Qed.

(** [authenticate] when the codec throws. *)
Lemma authenticate_rejected_token (req : Request) (w : World) (token : string)
    (e : JsError) :
  authorization req = bearer token →
  jwt_verify token (JWT_SECRET (env w)) (clock w) = Throw e →
  authenticate req w = authenticate_catch e w.
Proof.
  intros Hh Hv. unfold authenticate. cbv zeta. rewrite Hh.
  destruct (bearer_accepted token) as [-> ->]. eff. rewrite Hv. reflexivity.
Qed.

(** C2. A request with a verifiable, unexpired token whose subject id
    resolves to no account, and one whose subject id resolves to an
    account that is not active, are both answered 401, and answered with
    one and the same response: the client cannot tell the two apart. *)
Theorem C2_unknown_or_inactive_indistinguishable
    (req1 req2 : Request) (w1 w2 : World) (token1 token2 : string)
    (decoded1 decoded2 inactive : Obj) :
  authorization req1 = bearer token1 →
  jwt_verify token1 (JWT_SECRET (env w1)) (clock w1) = Normal decoded1 →
  lookup_account decoded1 w1 = (Normal None, w1) →
  authorization req2 = bearer token2 →
  jwt_verify token2 (JWT_SECRET (env w2)) (clock w2) = Normal decoded2 →
  lookup_account decoded2 w2 = (Normal (Some inactive), w2) →
  get inactive "isActive" = JBool false →
  ∃ res : Response,
    authenticate req1 w1 = (Normal (Respond res), w1)
    ∧ authenticate req2 w2 = (Normal (Respond res), w2)
    ∧ status res = JNum 401
    ∧ body_field res "message" = Some (JV (JStr "Invalid or inactive user token.")).
Proof.
  intros Hh1 Hv1 Hl1 Hh2 Hv2 Hl2 Hin.
  exists unauthenticated_account. repeat split.
  - rewrite (authenticate_verified req1 w1 token1 decoded1 Hh1 Hv1), Hl1. reflexivity.
  - rewrite (authenticate_verified req2 w2 token2 decoded2 Hh2 Hv2), Hl2, Hin. reflexivity.
Qed.


(** C8. When the codec throws, the answer is 401 either way, and the
    message tells a malformed or forged token ("Invalid token.") from an
    expired one ("Token has expired. Please login again."); the two
    responses differ.  The error handler maps the same two error names to
    401 with "Invalid token." and "Token expired." *)
Theorem C8_invalid_versus_expired (req : Request) (w : World) (token : string)
    (e : JsError) :
  authorization req = bearer token →
  jwt_verify token (JWT_SECRET (env w)) (clock w) = Throw e →
  (err_name e = JStr "JsonWebTokenError" →
     authenticate req w = (Normal (Respond unauthenticated_invalid), w)
     ∧ classify e = Normal {| statusCode := JNum 401; message := JStr "Invalid token." |})
  ∧ (err_name e = JStr "TokenExpiredError" →
     authenticate req w = (Normal (Respond unauthenticated_expired), w)
     ∧ classify e = Normal {| statusCode := JNum 401; message := JStr "Token expired." |})
  ∧ status unauthenticated_invalid = JNum 401
  ∧ status unauthenticated_expired = JNum 401
  ∧ body_field unauthenticated_invalid "message" = Some (JV (JStr "Invalid token."))
  ∧ body_field unauthenticated_expired "message"
    = Some (JV (JStr "Token has expired. Please login again."))
  ∧ body_field unauthenticated_invalid "message"
    ≠ body_field unauthenticated_expired "message".
Proof.
  intros Hh Hv.
  rewrite (authenticate_rejected_token req w token e Hh Hv).
  unfold authenticate_catch, classify.
  split; [|split].
  - intros Hname. rewrite Hname. split; reflexivity.
  - intros Hname. rewrite Hname. split; reflexivity.
  - repeat split; try reflexivity. discriminate.
Qed.


(** On success the context holds what the lookup returned, a row of the
    users table; the middleware adds nothing to it and removes nothing
    from it. *)
Lemma authenticate_attaches_stored_row (req req' : Request) (w w' : World) :
  authenticate req w = (Normal (Next req'), w') →
  ∃ u, u ∈ users w ∧ req' = set_user req u
       ∧ context_password req' = u !! "password".
Proof.
  intros E. destruct (authenticate_cases req w) as [(u & Hin & _ & E')|(res & _ & E')];
    rewrite E' in E; inversion E; subst.
  exists u. repeat split. exact Hin.
Qed.

(** C9. What [authenticate] resolves depends on the Authorization
    header, the users table and availability of the store, the signing
    secret and the clock, and on nothing else: two runs that agree on
    these resolve the same identity (or give the same rejection), and a
    run leaves the state as it found it, so the second of two runs in a
    row sees what the first saw. *)
Theorem C9_authenticate_deterministic (req req' : Request) (w w' : World) :
  authorization req = authorization req' →
  users w = users w' →
  db_fault w = db_fault w' →
  JWT_SECRET (env w) = JWT_SECRET (env w') →
  clock w = clock w' →
  resolved_identity (authenticate req w) = resolved_identity (authenticate req' w')
  ∧ rejection (authenticate req w) = rejection (authenticate req' w')
  ∧ (authenticate req w).2 = w.
Proof.
  intros Hh Hu Hf Hs Hc.
  assert (Hlookup : ∀ pk, (findByPk users pk [] w).1 = (findByPk users pk [] w').1).
  { intros pk. unfold findByPk, db_query.
    destruct pk; eff; try reflexivity; rewrite Hf;
      destruct (db_fault w'); rewrite ?Hu; reflexivity. }
  assert (Hcatch : ∀ e, (authenticate_catch e w).1 = (authenticate_catch e w').1).
  { intros e. unfold authenticate_catch.
    repeat (match goal with |- context [if ?c then _ else _] => destruct c end);
      reflexivity. }
  split; [|split].
  3:{ destruct (authenticate_cases req w) as [(u & _ & _ & E)|(res & _ & E)];
        rewrite E; reflexivity. }
  all: unfold resolved_identity, rejection, authenticate; cbv zeta;
    rewrite <- Hh;
    destruct (no_bearer (authorization req)); eff; try reflexivity;
    rewrite <- Hs, <- Hc;
    (destruct (jwt_verify _ _ _) as [decoded|e]; [|
       specialize (Hcatch e); unfold authenticate_catch in *;
       repeat (match goal with |- context [if ?c then _ else _] => destruct c end);
       reflexivity]);
    specialize (Hlookup (get decoded "id"));
    destruct (findByPk users (get decoded "id") [] w) as [[[u|]|e] w1];
    destruct (findByPk users (get decoded "id") [] w') as [[[u'|]|e'] w1'];
    simpl in Hlookup; inversion Hlookup; subst; try reflexivity;
    try (destruct (truthy (get u' "isActive")); reflexivity);
    unfold authenticate_catch;
    repeat (match goal with |- context [if ?c then _ else _] => destruct c end);
    reflexivity.
Qed.


Lemma run_chain_cons (mw : Middleware) (rest : list Middleware) (req : Request)
    (w w' : World) (o : Outcome) :
  mw req w = (Normal o, w') →
  run_chain (mw :: rest) req w =
    match o with
    | Next req' => run_chain rest req' w'
    | Respond res => (Normal res, w')
    | Forward e => errorHandler e req w'
    end.
Proof. intros E. simpl. eff. rewrite E. destruct o; reflexivity. Qed.

Lemma authorizeAdmin_decides (req : Request) (u : Obj) (w : World) :
  user req = Some u →
  authorizeAdmin req w =
    (Normal (if strict_eq (get u "role") (JStr "admin")
             then Next req else Respond forbidden_admin), w).
Proof.
  intros Hu. unfold authorizeAdmin. eff.
  rewrite (req_user_prop_some req u "role" w Hu). unfold strict_ne.
  destruct (strict_eq (get u "role") (JStr "admin")); reflexivity.
Qed.

Lemma authorizeOwnerOrAdmin_decides (req : Request) (u : Obj) (w : World) :
  user req = Some u →
  authorizeOwnerOrAdmin req w =
    (Normal (if strict_eq (get u "role") (JStr "admin")
                || strict_eq (get u "id") (resolve_resourceUserId req)
             then Next req else Respond forbidden_own_resources), w).
Proof.
  intros Hu. unfold authorizeOwnerOrAdmin. eff.
  rewrite (req_user_prop_some req u "role" w Hu).
  destruct (strict_eq (get u "role") (JStr "admin")); [reflexivity|]. simpl.
  rewrite (req_user_prop_some req u "id" w Hu).
  destruct (strict_eq (get u "id") (resolve_resourceUserId req)); reflexivity.
Qed.

(** C7. The gates decide on the role stored for the token's subject id
    and on nothing the token claims beyond that id: two tokens the codec
    accepts with the same subject id, whatever else their payloads say,
    lead every chain of [authenticate], a gate and header-blind handlers
    to the same response and state; and the account attached is a row of
    the users table under that id, whose stored role is what
    [authorizeAdmin] tests. *)
Theorem C7_role_read_from_store (req : Request) (w : World) (t1 t2 : string)
    (d1 d2 : Obj) (rest : list Middleware) :
  jwt_verify t1 (JWT_SECRET (env w)) (clock w) = Normal d1 →
  jwt_verify t2 (JWT_SECRET (env w)) (clock w) = Normal d2 →
  get d1 "id" = get d2 "id" →
  (∀ r h w0, run_chain rest (with_authorization r h) w0 = run_chain rest r w0) →
  run_chain (authenticate :: authorizeAdmin :: rest) (with_authorization req (bearer t1)) w
  = run_chain (authenticate :: authorizeAdmin :: rest) (with_authorization req (bearer t2)) w
  ∧ run_chain (authenticate :: authorizeOwnerOrAdmin :: rest) (with_authorization req (bearer t1)) w
    = run_chain (authenticate :: authorizeOwnerOrAdmin :: rest) (with_authorization req (bearer t2)) w
  ∧ (∀ req', authenticate (with_authorization req (bearer t1)) w = (Normal (Next req'), w) →
       ∃ u, u ∈ users w ∧ user req' = Some u ∧ get u "id" = get d1 "id"
            ∧ ((authorizeAdmin req' w).1 = Normal (Next req')
               ↔ get u "role" = JStr "admin")).
Proof.
  intros Hv1 Hv2 Hid Hrest.
  set (req1 := with_authorization req (bearer t1)).
  set (req2 := with_authorization req (bearer t2)).
  pose proof (authenticate_verified req1 w t1 d1 eq_refl Hv1) as E1.
  pose proof (authenticate_verified req2 w t2 d2 eq_refl Hv2) as E2.
  assert (Hl : lookup_account d2 w = lookup_account d1 w)
    by (unfold lookup_account; rewrite Hid; reflexivity).
  rewrite Hl in E2.
  pose proof (findByPk_readonly users (get d1 "id") [] w) as Hw.
  fold (lookup_account d1) in Hw.
  assert (Hreq2 : ∀ u, set_user req2 u = with_authorization (set_user req1 u) (bearer t2))
    by reflexivity.
  destruct (lookup_account d1 w) as [[[u|]|e] w1] eqn:Hlook; simpl in Hw; subst w1.
  - destruct (truthy (get u "isActive")) eqn:Hact.
    + split; [|split].
      * rewrite (run_chain_cons _ _ _ _ _ _ E1), (run_chain_cons _ _ _ _ _ _ E2).
        rewrite (run_chain_cons _ _ _ _ _ _ (authorizeAdmin_decides (set_user req1 u) u w eq_refl)).
        rewrite (run_chain_cons _ _ _ _ _ _ (authorizeAdmin_decides (set_user req2 u) u w eq_refl)).
        destruct (strict_eq (get u "role") (JStr "admin")); [|reflexivity].
        rewrite Hreq2, Hrest. reflexivity.
      * rewrite (run_chain_cons _ _ _ _ _ _ E1), (run_chain_cons _ _ _ _ _ _ E2).
        rewrite (run_chain_cons _ _ _ _ _ _ (authorizeOwnerOrAdmin_decides (set_user req1 u) u w eq_refl)).
        rewrite (run_chain_cons _ _ _ _ _ _ (authorizeOwnerOrAdmin_decides (set_user req2 u) u w eq_refl)).
        change (resolve_resourceUserId (set_user req2 u))
          with (resolve_resourceUserId (set_user req1 u)).
        destruct (strict_eq (get u "role") (JStr "admin")
                  || strict_eq (get u "id") (resolve_resourceUserId (set_user req1 u)));
          [|reflexivity].
        rewrite Hreq2, Hrest. reflexivity.
      * intros req' E. rewrite E1 in E. inversion E; subst req'.
        unfold lookup_account in Hlook. apply findByPk_stored in Hlook as [Hin Hpk].
        exists u. repeat split; [exact Hin | exact Hpk | |].
        -- rewrite (authorizeAdmin_decides (set_user req1 u) u w eq_refl). simpl.
           destruct (strict_eq (get u "role") (JStr "admin")) eqn:Hrole; [|discriminate].
           intros _. by apply strict_eq_true_iff.
        -- intros Hrole.
           rewrite (authorizeAdmin_decides (set_user req1 u) u w eq_refl), Hrole.
           reflexivity.
    + split; [|split].
      * rewrite (run_chain_cons _ _ _ _ _ _ E1), (run_chain_cons _ _ _ _ _ _ E2). reflexivity.
      * rewrite (run_chain_cons _ _ _ _ _ _ E1), (run_chain_cons _ _ _ _ _ _ E2). reflexivity.
      * intros req' E. rewrite E1 in E. discriminate.
  - split; [|split].
    + rewrite (run_chain_cons _ _ _ _ _ _ E1), (run_chain_cons _ _ _ _ _ _ E2). reflexivity.
    + rewrite (run_chain_cons _ _ _ _ _ _ E1), (run_chain_cons _ _ _ _ _ _ E2). reflexivity.
    + intros req' E. rewrite E1 in E. discriminate.
  - destruct (authenticate_catch_answers e w) as (res & _ & Ec).
    rewrite Ec in E1, E2. split; [|split].
    + rewrite (run_chain_cons _ _ _ _ _ _ E1), (run_chain_cons _ _ _ _ _ _ E2). reflexivity.
    + rewrite (run_chain_cons _ _ _ _ _ _ E1), (run_chain_cons _ _ _ _ _ _ E2). reflexivity.
    + intros req' E. rewrite E1 in E. discriminate.
Qed.


(** C4, as the code has it.  A failure met by [authenticate] (no bearer
    header, a token the codec rejects, no such account or an inactive one,
    an error of the store) is answered by [authenticate] itself with one of
    its five envelopes; the rest of the chain and the error handler do not
    run and the console stays as it was.  The two gates answer their 403
    themselves in the same way.  The error handler formats what reaches it
    through [next(error)]. *)
Theorem C4_middleware_answers_at_call_site (req : Request) (w : World)
    (rest : list Middleware) :
  ((∃ u, authenticate req w = (Normal (Next (set_user req u)), w)
         ∧ run_chain (authenticate :: rest) req w = run_chain rest (set_user req u) w)
   ∨ (∃ res, authenticate_answer res
         ∧ authenticate req w = (Normal (Respond res), w)
         ∧ run_chain (authenticate :: rest) req w = (Normal res, w)
         ∧ ¬ formatted_by_normalizer req w (run_chain (authenticate :: rest) req w)))
  ∧ (∀ u, user req = Some u →
       (authorizeAdmin req w = (Normal (Next req), w)
        ∨ authorizeAdmin req w = (Normal (Respond forbidden_admin), w))
       ∧ (authorizeOwnerOrAdmin req w = (Normal (Next req), w)
          ∨ authorizeOwnerOrAdmin req w = (Normal (Respond forbidden_own_resources), w)))
  ∧ (∀ (mw : Middleware) e,
       mw req w = (Normal (Forward e), w) →
       run_chain (mw :: rest) req w = errorHandler e req w
       ∧ formatted_by_normalizer req w (run_chain (mw :: rest) req w)).
Proof.
  split; [|split].
  - destruct (authenticate_cases req w) as [(u & _ & _ & E)|(res & Hans & E)].
    + left. exists u. split; [exact E|]. exact (run_chain_cons _ _ _ _ _ _ E).
    + right. exists res.
      pose proof (run_chain_cons _ rest _ _ _ _ E) as Erun. cbv beta iota in Erun.
      split; [exact Hans|]. split; [exact E|]. split; [exact Erun|].
      intros [err Herr]. pose proof (eq_trans (eq_sym Erun) Herr) as Hout.
      apply (f_equal (λ out, length (console out.2))) in Hout.
      rewrite (proj2 (errorHandler_logs err req w)) in Hout.
      simpl in Hout. lia.
  - intros u Hu. split.
    + rewrite (authorizeAdmin_decides req u w Hu).
      destruct (strict_eq _ _); auto.
    + rewrite (authorizeOwnerOrAdmin_decides req u w Hu).
      destruct (_ || _); auto.
  - intros mw e E. pose proof (run_chain_cons _ rest _ _ _ _ E) as Erun.
    cbv beta iota in Erun. split; [exact Erun|]. exists e. exact Erun.
Qed.

End Authenticate.

(** The lookup of the user routes, by contrast, asks for the row without
    its [password]: what GET /users/:id serialises has no such property. *)
Lemma get_user_excludes_password (req : Request) (w w' : World) (res : Response) :
  get_user req w = (Normal (Respond res), w') →
  status res = JNum 200 →
  ∃ account, response_user res = Some account
             ∧ json_field account "password" = None.
Proof.
  intros E Hs. unfold get_user in E. eff.
  destruct (findByPk users (get (params req) "id") ["password"] w)
    as [[[row|]|e] w1] eqn:Hfind; simpl in E.
  - inversion E; subst. eexists. split; [reflexivity|].
    unfold with_products, json_field, json_of_obj.
    rewrite lookup_insert_ne by discriminate. rewrite lookup_fmap.
    unfold findByPk, db_query in Hfind.
    destruct (get (params req) "id"); eff; try discriminate;
      (destruct (db_fault w); [discriminate|]);
      (destruct (List.find _ (users w)) as [stored|]; simpl in Hfind; [|discriminate]);
      inversion Hfind; subst;
      unfold exclude_attributes; simpl; by rewrite lookup_delete_eq.
  - inversion E; subst. discriminate.
  - inversion E.
Qed.

Lemma C2_unknown_or_inactive_indistinguishable_witness :
  ∃ res : Response,
    @authenticate Fixture.codec (Fixture.request (bearer "ghost")) Fixture.world
    = (Normal (Respond res), Fixture.world)
    ∧ @authenticate Fixture.codec (Fixture.request (bearer "bob")) Fixture.world
      = (Normal (Respond res), Fixture.world)
    ∧ status res = JNum 401
    ∧ body_field res "message" = Some (JV (JStr "Invalid or inactive user token.")).
Proof.
  apply (@C2_unknown_or_inactive_indistinguishable Fixture.codec
           (Fixture.request (bearer "ghost")) (Fixture.request (bearer "bob"))
           Fixture.world Fixture.world "ghost" "bob"
           {[ "id" := JStr "u9" ]} {[ "id" := JStr "u2" ]} Fixture.bob);
    reflexivity.
Defined.

Lemma C8_invalid_versus_expired_witness :
  @authenticate Fixture.codec (Fixture.request (bearer "junk")) Fixture.world
  = (Normal (Respond unauthenticated_invalid), Fixture.world)
  ∧ @authenticate Fixture.codec (Fixture.request (bearer "old")) Fixture.world
    = (Normal (Respond unauthenticated_expired), Fixture.world).
Proof.
  split.
  - destruct (@C8_invalid_versus_expired Fixture.codec
                (Fixture.request (bearer "junk")) Fixture.world "junk"
                (Fixture.an_error "JsonWebTokenError" "jwt malformed")
                eq_refl eq_refl) as (Hinvalid & _).
    apply Hinvalid. reflexivity.
  - destruct (@C8_invalid_versus_expired Fixture.codec
                (Fixture.request (bearer "old")) Fixture.world "old"
                (Fixture.an_error "TokenExpiredError" "jwt expired")
                eq_refl eq_refl) as (_ & Hexpired & _).
    apply Hexpired. reflexivity.
Defined.

Lemma C9_authenticate_deterministic_witness :
  resolved_identity (@authenticate Fixture.codec (Fixture.request (bearer "alice")) Fixture.world)
  = Some (JStr "u1", JStr "user")
  ∧ resolved_identity
      (@authenticate Fixture.codec
         (Fixture.request (bearer "alice"))
         (@authenticate Fixture.codec (Fixture.request (bearer "alice")) Fixture.world).2)
    = Some (JStr "u1", JStr "user").
Proof.
  destruct (@C9_authenticate_deterministic Fixture.codec
              (Fixture.request (bearer "alice")) (Fixture.request (bearer "alice"))
              Fixture.world Fixture.world eq_refl eq_refl eq_refl eq_refl eq_refl)
    as (_ & _ & Hsame).
  rewrite Hsame. split; reflexivity.
Defined.

Lemma C7_role_read_from_store_witness :
  @run_chain Fixture.http [@authenticate Fixture.codec; authorizeAdmin; delete_product]
    (Fixture.request (bearer "alice-claims-admin")) Fixture.world
  = (Normal forbidden_admin, Fixture.world).
Proof.
  destruct (@C7_role_read_from_store Fixture.codec Fixture.http (Fixture.request None)
              Fixture.world "alice" "alice-claims-admin"
              {[ "id" := JStr "u1"; "role" := JStr "user" ]}
              {[ "id" := JStr "u1"; "role" := JStr "admin" ]}
              [delete_product] eq_refl eq_refl eq_refl
              (λ r h w0, eq_refl)) as (Hadmin & _).
  etransitivity; [symmetry; exact Hadmin | reflexivity].
Defined.

Lemma C4_middleware_answers_at_call_site_witness :
  run_chain (H := Fixture.http) (@products_list_route Fixture.codec Fixture.dialect)
    (Fixture.request (bearer "old")) Fixture.world
  = (Normal unauthenticated_expired, Fixture.world)
  ∧ formatted_by_normalizer (H := Fixture.http)
      (Fixture.request_as Fixture.alice JUndefined)
      Fixture.world_offline
      (run_chain (H := Fixture.http) [@list_products Fixture.dialect]
         (Fixture.request_as Fixture.alice JUndefined) Fixture.world_offline).
Proof.
  split.
  - destruct (@C4_middleware_answers_at_call_site Fixture.codec Fixture.http
                (Fixture.request (bearer "old")) Fixture.world
                [@list_products Fixture.dialect])
      as [[(u & E & _)|(res & _ & E & Erun & _)] _].
    + discriminate E.
    + injection E as <-. exact Erun.
  - destruct (@C4_middleware_answers_at_call_site Fixture.codec Fixture.http
                (Fixture.request_as Fixture.alice JUndefined) Fixture.world_offline
                []) as (_ & _ & Hforward).
    exact (proj2 (Hforward (@list_products Fixture.dialect)
                    Fixture.connection_refused eq_refl)).
Defined.

(** C4, as worded, fails: a request without an Authorization header is
    turned away by [authenticate], and what the client receives is not a
    result of the error handler. *)
Lemma C4_counterexample :
  rejection (@authenticate Fixture.codec (Fixture.request None) Fixture.world)
  = Some unauthenticated_no_header
  ∧ ¬ formatted_by_normalizer (H := Fixture.http) (Fixture.request None) Fixture.world
        (run_chain (H := Fixture.http)
           (@products_list_route Fixture.codec Fixture.dialect)
           (Fixture.request None) Fixture.world).
Proof.
  split; [reflexivity|]. intros [err Herr].
  apply (f_equal (λ out, length (console out.2))) in Herr.
  rewrite (proj2 (@errorHandler_logs Fixture.http err _ _)) in Herr.
  discriminate Herr.
Qed.

(* ===================================================================== *)
(** ** The error handler *)
(* ===================================================================== *)


Section Unclassified.
Context `{HttpLayer}.


End Unclassified.



(* ===================================================================== *)
(** ** The owner id the gate compares *)
(* ===================================================================== *)

(** C6, as the code has it.  The owner id the gate compares is the first
    truthy value among the handler-attached field, the body field and the
    path parameter, in that order, and the path parameter's value when
    neither of the first two is truthy; a value that is there but falsy
    (empty string, 0, null, false, NaN) is passed over.  For an account
    that is not admin the gate passes exactly when its id is strictly
    equal to that value.  The order is the one the specification gives
    whenever the first two locations hold nothing falsy but [undefined]. *)
Theorem C6_first_truthy_owner_id (req : Request) :
  (truthy (resourceUserId req) = true →
     resolve_resourceUserId req = resourceUserId req)
  ∧ (truthy (resourceUserId req) = false → truthy (get (body_ req) "userId") = true →
     resolve_resourceUserId req = get (body_ req) "userId")
  ∧ (truthy (resourceUserId req) = false → truthy (get (body_ req) "userId") = false →
     resolve_resourceUserId req = get (params req) "userId")
  ∧ (∀ u w, user req = Some u → get u "role" ≠ JStr "admin" →
       authorizeOwnerOrAdmin req w =
         (Normal (if strict_eq (get u "id") (resolve_resourceUserId req)
                  then Next req else Respond forbidden_own_resources), w))
  ∧ ((∀ v, v ∈ [resourceUserId req; get (body_ req) "userId"] →
           v = JUndefined ∨ truthy v = true) →
     resolve_resourceUserId req = first_present_owner_id req).
Proof.
  unfold resolve_resourceUserId, js_or. repeat split.
  - intros Ha. rewrite Ha. cbv iota. rewrite Ha. reflexivity.
  - intros Ha Hb. rewrite Ha. cbv iota. rewrite Hb. reflexivity.
  - intros Ha Hb. rewrite Ha. cbv iota. rewrite Hb. reflexivity.
  - intros u w Hu Hrole.
    rewrite (authorizeOwnerOrAdmin_decides req u w Hu).
    rewrite (strict_eq_ne _ _ Hrole). reflexivity.
  - intros Hclean. unfold first_present_owner_id.
    assert (Hpresent : ∀ v, truthy v = true → present v = true).
    { intros v Hv. apply bool_decide_eq_true_2. intros ->. discriminate. }
    change (present JUndefined) with false.
    destruct (Hclean (resourceUserId req)) as [Ha|Ha]; [set_solver| |].
    + rewrite Ha. change (truthy JUndefined) with false.
      change (present JUndefined) with false. cbv iota.
      destruct (Hclean (get (body_ req) "userId")) as [Hb|Hb]; [set_solver| |].
      * rewrite Hb. reflexivity.
      * rewrite Hb, (Hpresent _ Hb). reflexivity.
    + rewrite Ha. cbv iota. rewrite Ha, (Hpresent _ Ha). reflexivity.
Qed.

Lemma C6_first_truthy_owner_id_witness :
  resolve_resourceUserId (Fixture.request_as Fixture.alice (JStr "a1")) = JStr "a1"
  ∧ resolve_resourceUserId Fixture.request_empty_owner = JStr "u1".
Proof.
  split.
  - destruct (C6_first_truthy_owner_id (Fixture.request_as Fixture.alice (JStr "a1")))
      as (Hfirst & _).
    exact (Hfirst eq_refl).
  - destruct (C6_first_truthy_owner_id Fixture.request_empty_owner)
      as (_ & _ & Hthird & _).
    exact (Hthird eq_refl eq_refl).
Defined.

(** C6, as worded, fails: with nothing attached by the handler, an empty
    string as the body field and the client's own id as the path
    parameter, the first present value is the body's empty string, yet the
    gate compares the path parameter and lets the client through. *)
Lemma C6_counterexample :
  first_present_owner_id Fixture.request_empty_owner = JStr ""
  ∧ resolve_resourceUserId Fixture.request_empty_owner ≠ first_present_owner_id Fixture.request_empty_owner
  ∧ authorizeOwnerOrAdmin Fixture.request_empty_owner Fixture.world
    = (Normal (Next Fixture.request_empty_owner), Fixture.world).
Proof. split; [reflexivity|]. split; [discriminate | reflexivity]. Qed.

(* ===================================================================== *)
(** ** The product list *)
(* ===================================================================== *)

Section ProductList.
Context `{SqlDialect}.

Lemma matches_lookup (where_ : gmap string Cond) (row : Obj) (k : string) (c : Cond) :
  matches where_ row = true → where_ !! k = Some c →
  cond_holds c (get row k) = true.
Proof.
  unfold matches. intros Hm Hk. apply bool_decide_eq_true in Hm.
  exact (Hm k c Hk).
Qed.

Lemma build_where_owner (req : Request) (u : Obj) :
  build_where req u !! "userId"
  = if strict_ne (get u "role") (JStr "admin") then Some (CEq (get u "id")) else None.
Proof.
  unfold build_where.
  destruct (strict_ne (get u "role") (JStr "admin")).
  - apply lookup_insert_eq.
  - destruct (truthy (category (query req))), (search (query req)) as [| | | | |s|];
      try destruct (truthy (JStr s));
      repeat (rewrite lookup_insert_ne by discriminate);
      apply lookup_empty.
Qed.

Lemma with_owner_userId (w : World) (p : Obj) :
  json_get (with_owner w p) "userId" = JV (get p "userId").
Proof.
  unfold json_get, with_owner, json_field, json_of_obj, get.
  rewrite lookup_insert_ne by discriminate. rewrite lookup_fmap.
  destruct (p !! "userId"); reflexivity.
Qed.

(** A successful answer of the list route carries the requested page of
    the rows its [where] object selects. *)
Lemma list_products_ok (req : Request) (u : Obj) (w w' : World) (res : Response) :
  user req = Some u →
  list_products req w = (Normal (Respond res), w') →
  status res = JNum 200 →
  response_products res = with_owner w <$> listed_rows req u w.
Proof.
  intros Hu E Hs. unfold list_products in E. eff.
  destruct (bool_decide (validationResult req = [])); simpl in E.
  2:{ inversion E; subst. discriminate. }
  rewrite Hu in E. simpl in E.
  unfold findAndCountAll, db_query in E.
  destruct (db_fault w); simpl in E; [discriminate|].
  inversion E; subst. reflexivity.
Qed.

(** C10. In a successful answer of the product list to an account whose
    role is not [admin], every product has the requesting account's id as
    its [userId]; for an [admin] the [where] object carries no [userId]
    entry, so rows of every owner are selected. *)
Theorem C10_list_owner_filter (req : Request) (u : Obj) (w w' : World)
    (res : Response) :
  user req = Some u →
  list_products req w = (Normal (Respond res), w') →
  status res = JNum 200 →
  (strict_ne (get u "role") (JStr "admin") = true →
     Forall (λ p, json_get p "userId" = JV (get u "id")) (response_products res))
  ∧ (get u "role" = JStr "admin" →
     build_where req u !! "userId" = None
     ∧ response_products res = with_owner w <$> listed_rows req u w).
Proof.
  intros Hu E Hs.
  pose proof (list_products_ok req u w w' res Hu E Hs) as Hrows.
  split.
  - intros Hrole. rewrite Hrows. apply Forall_fmap.
    unfold listed_rows. apply Forall_take, Forall_drop.
    rewrite merge_sort_Permutation.
    apply Forall_forall. intros p Hin.
    apply list_elem_of_In, filter_In in Hin as [_ Hm]. simpl.
    rewrite with_owner_userId. f_equal.
    pose proof (build_where_owner req u) as Hw. rewrite Hrole in Hw.
    pose proof (matches_lookup _ _ _ _ Hm Hw) as Hc. simpl in Hc.
    by apply bool_decide_eq_true in Hc.
  - intros Hrole. split; [|exact Hrows].
    rewrite build_where_owner, Hrole. reflexivity.
Qed.

End ProductList.

Lemma C10_list_owner_filter_witness :
  Forall (λ p, json_get p "userId" = JV (JStr "u1"))
    (response_products (Fixture.listing_for Fixture.alice))
  ∧ length (response_products (Fixture.listing_for Fixture.alice)) = 1%nat
  ∧ length (response_products (Fixture.listing_for Fixture.root)) = 2%nat.
Proof.
  split; [|split; reflexivity].
  destruct (@C10_list_owner_filter Fixture.dialect
              (Fixture.request_as Fixture.alice JUndefined) Fixture.alice
              Fixture.world Fixture.world (Fixture.listing_for Fixture.alice)
              eq_refl eq_refl eq_refl) as [Howner _].
  exact (Howner eq_refl).
Defined.

(* ===================================================================== *)
(** ** Further properties: the middleware *)
(* ===================================================================== *)


Lemma strict_eq_refl_truthy (v : jsval) : truthy v = true → strict_eq v v = true.
Proof.
  destruct v; simpl; try discriminate; intros _.
  - destruct b; reflexivity.
  - apply Z.eqb_refl.
  - apply String.eqb_refl.
  - apply Nat.eqb_refl.
Qed.

Section MiddlewareFacts.
Context `{TokenCodec} `{HttpLayer}.


(** With the store unreachable, a request whose token verifies is
    answered 500 "Authentication error." and the store's own error
    message goes out in the [error] field; no route handler runs.  A
    payload without a subject id is answered 401 all the same, since no
    query is made for it. *)
Theorem authenticate_store_failure (req : Request) (w : World) (token : string)
    (decoded : Obj) (e : JsError) (rest : list Middleware) :
  authorization req = bearer token →
  jwt_verify token (JWT_SECRET (env w)) (clock w) = Normal decoded →
  db_fault w = Some e →
  (get decoded "id" ≠ JUndefined → get decoded "id" ≠ JNull →
   err_name e ≠ JStr "JsonWebTokenError" → err_name e ≠ JStr "TokenExpiredError" →
     run_chain (authenticate :: rest) req w = (Normal (authentication_error e), w)
     ∧ body_field (authentication_error e) "error" = Some (JV (err_message e)))
  ∧ ((get decoded "id" = JUndefined ∨ get decoded "id" = JNull) →
     run_chain (authenticate :: rest) req w = (Normal unauthenticated_account, w)).
Proof.
  intros Hh Hv Hdb.
  pose proof (authenticate_verified req w token decoded Hh Hv) as E.
  unfold lookup_account, findByPk, db_query in E. split.
  - intros Hu Hn Hj Ht.
    assert (E' : authenticate req w = (Normal (Respond (authentication_error e)), w)).
    { rewrite E. destruct (get decoded "id"); try congruence; rewrite Hdb;
        unfold authenticate_catch;
        rewrite (strict_eq_ne _ _ Hj), (strict_eq_ne _ _ Ht); reflexivity. }
    split; [|reflexivity]. exact (run_chain_cons _ rest _ _ _ _ E').
  - intros Hid.
    assert (E' : authenticate req w = (Normal (Respond unauthenticated_account), w)).
    { rewrite E. destruct Hid as [-> | ->]; reflexivity. }
    exact (run_chain_cons _ rest _ _ _ _ E').
Qed.

End MiddlewareFacts.

Section GateFacts.
Context `{HttpLayer}.

(** The role gate in a chain: an account whose stored role is exactly
    "admin" is handed to the rest of the chain; with any other role
    (another spelling, or none) the answer is 403 and the rest does not
    run. *)
Theorem authorizeAdmin_gate (req : Request) (u : Obj) (w : World)
    (rest : list Middleware) :
  user req = Some u →
  (get u "role" = JStr "admin" →
     run_chain (authorizeAdmin :: rest) req w = run_chain rest req w)
  ∧ (get u "role" ≠ JStr "admin" →
     run_chain (authorizeAdmin :: rest) req w = (Normal forbidden_admin, w)).
Proof.
  intros Hu.
  pose proof (run_chain_cons _ rest _ _ _ _ (authorizeAdmin_decides req u w Hu)) as E.
  split; intros Hrole; refine (eq_trans E _).
  - rewrite Hrole. reflexivity.
  - rewrite (strict_eq_ne _ _ Hrole). reflexivity.
Qed.

(** A gate mounted without [authenticate] in front of it grants nothing:
    reading the role of the missing account throws, the error handler
    logs the TypeError and answers 500, and the rest of the chain does not
    run. *)
Theorem gates_without_authenticate (req : Request) (w : World)
    (rest : list Middleware) :
  user req = None →
  ∃ (res : Response) (w' : World),
    run_chain (authorizeAdmin :: rest) req w = (Normal res, w')
    ∧ run_chain (authorizeOwnerOrAdmin :: rest) req w = (Normal res, w')
    ∧ status res = JNum 500
    ∧ console w' = TypeError_undefined "role" :: console w
    ∧ same_but_console w w'.
Proof.
  intros Hu. simpl. unfold authorizeAdmin, authorizeOwnerOrAdmin, req_user_prop.
  rewrite Hu. eff. unfold errorHandler, console_error. eff.
  change (js_or JUndefined (JNum 500)) with (JNum 500).
  rewrite (send_status_valid 500) by lia. simpl.
  eexists _, _. split; [reflexivity|]. split; [reflexivity|].
  split; [reflexivity|]. split; [reflexivity|]. repeat split.
Qed.

End GateFacts.

(** When no handler attached an owner id, the ownership gate compares the
    account's id with what the request itself says: a client that sends
    its own id as the body's [userId], or as the path parameter with no
    truthy body field, passes. *)
Theorem owner_gate_trusts_request_fields (req : Request) (u : Obj) (w : World) :
  user req = Some u →
  truthy (resourceUserId req) = false →
  truthy (get u "id") = true →
  (get (body_ req) "userId" = get u "id"
   ∨ (truthy (get (body_ req) "userId") = false
      ∧ get (params req) "userId" = get u "id")) →
  authorizeOwnerOrAdmin req w = (Normal (Next req), w).
Proof.
  intros Hu Hattached Hid Hsent.
  rewrite (authorizeOwnerOrAdmin_decides req u w Hu).
  assert (Hres : resolve_resourceUserId req = get u "id").
  { unfold resolve_resourceUserId, js_or. rewrite Hattached. cbv iota.
    destruct Hsent as [Hb | [Hb Hp]].
    - rewrite Hb, Hid. reflexivity.
    - rewrite Hb. exact Hp. }
  rewrite Hres, (strict_eq_refl_truthy _ Hid), orb_true_r. reflexivity.
Qed.


Lemma authenticate_store_failure_witness :
  run_chain (H := Fixture.http) (@products_list_route Fixture.codec Fixture.dialect)
    (Fixture.request (bearer "alice")) Fixture.world_offline
  = (Normal (authentication_error Fixture.connection_refused), Fixture.world_offline).
Proof.
  destruct (@authenticate_store_failure Fixture.codec Fixture.http
              (Fixture.request (bearer "alice")) Fixture.world_offline "alice"
              {[ "id" := JStr "u1"; "role" := JStr "user" ]}
              Fixture.connection_refused [@list_products Fixture.dialect]
              eq_refl eq_refl eq_refl) as [Hdown _].
  apply Hdown; discriminate.
Defined.

Lemma authorizeAdmin_gate_witness :
  run_chain (H := Fixture.http) [authorizeAdmin; delete_product]
    (Fixture.request_as Fixture.alice JUndefined) Fixture.world
  = (Normal forbidden_admin, Fixture.world)
  ∧ run_chain (H := Fixture.http) [authorizeAdmin; delete_product]
      (Fixture.request_as Fixture.root JUndefined) Fixture.world
    = run_chain (H := Fixture.http) [delete_product]
        (Fixture.request_as Fixture.root JUndefined) Fixture.world.
Proof.
  split.
  - destruct (@authorizeAdmin_gate Fixture.http
                (Fixture.request_as Fixture.alice JUndefined)
                Fixture.alice Fixture.world [delete_product] eq_refl) as [_ Hdeny].
    apply Hdeny. discriminate.
  - destruct (@authorizeAdmin_gate Fixture.http
                (Fixture.request_as Fixture.root JUndefined)
                Fixture.root Fixture.world [delete_product] eq_refl) as [Hpass _].
    apply Hpass. reflexivity.
Defined.

Lemma gates_without_authenticate_witness :
  ∃ (res : Response) (w' : World),
    run_chain (H := Fixture.http) [authorizeAdmin; delete_product]
      Samples.anonymous Fixture.world
    = (Normal res, w')
    ∧ status res = JNum 500.
Proof.
  destruct (@gates_without_authenticate Fixture.http Samples.anonymous Fixture.world
              [delete_product] eq_refl) as (res & w' & Hadmin & _ & Hstatus & _).
  exists res, w'. split; assumption.
Defined.

Lemma owner_gate_trusts_request_fields_witness :
  authorizeOwnerOrAdmin
    (Samples.body_request Fixture.alice {[ "userId" := JStr "u1" ]}) Fixture.world
  = (Normal (Next (Samples.body_request Fixture.alice {[ "userId" := JStr "u1" ]})),
     Fixture.world).
Proof.
  apply (owner_gate_trusts_request_fields
           (Samples.body_request Fixture.alice {[ "userId" := JStr "u1" ]})
           Fixture.alice Fixture.world eq_refl eq_refl eq_refl).
  left. reflexivity.
Defined.

(* ===================================================================== *)
(** ** Further properties: the error handler and the end of the chain *)
(* ===================================================================== *)

(** What the error handler gives: it throws what the classification or
    the sending throws, and otherwise answers with the classified status
    (or 500) and the envelope. *)
Lemma errorHandler_result `{HttpLayer} (err : JsError) (req : Request) (w : World) :
  (errorHandler err req w).1 =
    match classify err with
    | Throw e => Throw e
    | Normal error =>
        match send_status (js_or (statusCode error) (JNum 500)) with
        | Throw e => Throw e
        | Normal _ =>
            Normal {| status := js_or (statusCode error) (JNum 500);
                      body := envelope (env w) err error |}
        end
    end.
Proof.
  unfold errorHandler, console_error. eff.
  destruct (classify err) as [error|e]; simpl; [|reflexivity].
  destruct (send_status _); reflexivity.
Qed.

Lemma classify_named (err : JsError) (name : string) :
  err_name err = JStr name →
  classify err =
    if String.eqb name "TokenExpiredError"
    then Normal {| statusCode := JNum 401; message := JStr "Token expired." |}
    else if String.eqb name "JsonWebTokenError"
    then Normal {| statusCode := JNum 401; message := JStr "Invalid token." |}
    else if String.eqb name "SequelizeForeignKeyConstraintError"
    then Normal {| statusCode := JNum 400;
                   message := JStr "Invalid reference. Related record does not exist." |}
    else if String.eqb name "SequelizeUniqueConstraintError"
    then Normal {| statusCode := JNum 409;
                   message := JStr "Duplicate entry. This record already exists." |}
    else if String.eqb name "SequelizeValidationError"
    then match err_errors err with
         | Some items =>
             Normal {| statusCode := JNum 400;
                       message := JStr ("Validation Error: " +:+ join ", " items) |}
         | None => Throw TypeError_not_object
         end
    else Normal {| statusCode := err_statusCode err; message := err_message err |}.
Proof.
  intros Hname. unfold classify, error_messages. rewrite Hname. simpl.
  destruct (String.eqb_spec name "SequelizeValidationError") as [->|_].
  { simpl. destruct (err_errors err); reflexivity. }
  destruct (String.eqb_spec name "SequelizeUniqueConstraintError") as [->|_];
    [reflexivity|].
  destruct (String.eqb_spec name "SequelizeForeignKeyConstraintError") as [->|_];
    [reflexivity|].
  destruct (String.eqb_spec name "JsonWebTokenError") as [->|_]; [reflexivity|].
  destruct (String.eqb_spec name "TokenExpiredError") as [->|_]; reflexivity.
Qed.

Section NormalizerFacts.
Context `{HttpLayer}.

(** For the five error names it knows, the error handler answers with a
    fixed status and a fixed message, whatever status and message the
    error itself carries: 409 "Duplicate entry..." for a uniqueness
    failure, 400 "Invalid reference..." for a foreign key failure, 401 for
    the two token errors; for a validation failure that has its [errors],
    400 with the items' messages joined by ", ". *)
Theorem errorHandler_classified (err : JsError) (req : Request) (w : World) :
  (∀ items,
     err_name err = JStr "SequelizeValidationError" → err_errors err = Some items →
     ∃ res, (errorHandler err req w).1 = Normal res
            ∧ status res = JNum 400
            ∧ body_field res "message"
              = Some (JV (JStr ("Validation Error: " +:+ join ", " items))))
  ∧ (err_name err = JStr "SequelizeUniqueConstraintError" →
     ∃ res, (errorHandler err req w).1 = Normal res
            ∧ status res = JNum 409
            ∧ body_field res "message"
              = Some (JV (JStr "Duplicate entry. This record already exists.")))
  ∧ (err_name err = JStr "SequelizeForeignKeyConstraintError" →
     ∃ res, (errorHandler err req w).1 = Normal res
            ∧ status res = JNum 400
            ∧ body_field res "message"
              = Some (JV (JStr "Invalid reference. Related record does not exist.")))
  ∧ (err_name err = JStr "JsonWebTokenError" →
     ∃ res, (errorHandler err req w).1 = Normal res
            ∧ status res = JNum 401
            ∧ body_field res "message" = Some (JV (JStr "Invalid token.")))
  ∧ (err_name err = JStr "TokenExpiredError" →
     ∃ res, (errorHandler err req w).1 = Normal res
            ∧ status res = JNum 401
            ∧ body_field res "message" = Some (JV (JStr "Token expired."))).
Proof.
  assert (Hbody : ∀ error m, message error = JStr m → truthy (JStr m) = true →
            body_field {| status := js_or (statusCode error) (JNum 500);
                          body := envelope (env w) err error |} "message"
            = Some (JV (JStr m))).
  { intros error m Hm Ht. unfold body_field, envelope, js_or. simpl.
    rewrite Hm, Ht.
    destruct (strict_eq (NODE_ENV (env w)) (JStr "development")); reflexivity. }
  repeat match goal with |- _ ∧ _ => split end.
  - intros items Hname Hitems. rewrite errorHandler_result.
    rewrite (classify_named err _ Hname), Hitems. simpl.
    rewrite (send_status_valid 400) by lia.
    eexists. split; [reflexivity|]. split; [reflexivity|].
    by apply Hbody.
  - intros Hname. rewrite errorHandler_result, (classify_named err _ Hname). simpl.
    rewrite (send_status_valid 409) by lia.
    eexists. split; [reflexivity|]. split; [reflexivity|]. by apply Hbody.
  - intros Hname. rewrite errorHandler_result, (classify_named err _ Hname). simpl.
    rewrite (send_status_valid 400) by lia.
    eexists. split; [reflexivity|]. split; [reflexivity|]. by apply Hbody.
  - intros Hname. rewrite errorHandler_result, (classify_named err _ Hname). simpl.
    rewrite (send_status_valid 401) by lia.
    eexists. split; [reflexivity|]. split; [reflexivity|]. by apply Hbody.
  - intros Hname. rewrite errorHandler_result, (classify_named err _ Hname). simpl.
    rewrite (send_status_valid 401) by lia.
    eexists. split; [reflexivity|]. split; [reflexivity|]. by apply Hbody.
Qed.


End NormalizerFacts.

Lemma errorHandler_classified_witness :
  ∃ res : Response,
    (errorHandler (H := Fixture.http)
       {| err_name := JStr "SequelizeUniqueConstraintError";
          err_message := JStr "Validation error";
          err_statusCode := JNum 500;
          err_stack := JUndefined;
          err_errors := Some ["email must be unique"] |}
       (Fixture.request None) Fixture.world).1 = Normal res
    ∧ status res = JNum 409
    ∧ body_field res "message"
      = Some (JV (JStr "Duplicate entry. This record already exists.")).
Proof.
  destruct (@errorHandler_classified Fixture.http
              {| err_name := JStr "SequelizeUniqueConstraintError";
                 err_message := JStr "Validation error";
                 err_statusCode := JNum 500;
                 err_stack := JUndefined;
                 err_errors := Some ["email must be unique"] |}
              (Fixture.request None) Fixture.world)
    as (_ & Hunique & _).
  exact (Hunique eq_refl).
Defined.


Section Unmatched.
Context `{TokenCodec} `{HttpLayer}.

(** A path under the products router that no route matches still passes
    through [authenticate]: the client gets the 404 "Route not found",
    with the path it asked for, only when its token resolves to an active
    account; otherwise it gets the answer of [authenticate]. *)
Theorem unmatched_route_behind_authenticate (req : Request) (w : World) :
  (∃ res, authenticate_answer res
          ∧ run_chain products_unmatched_route req w = (Normal res, w))
  ∨ ((∃ u, authenticate req w = (Normal (Next (set_user req u)), w))
     ∧ run_chain products_unmatched_route req w = (Normal (not_found req), w)
     ∧ status (not_found req) = JNum 404
     ∧ body_field (not_found req) "path" = Some (JV (JStr (originalUrl req)))).
Proof.
  unfold products_unmatched_route.
  destruct (authenticate_cases req w) as [(u & _ & _ & E)|(res & Hans & E)].
  - right. split; [by exists u|].
    split; [exact (run_chain_cons _ [] _ _ _ _ E)|]. split; reflexivity.
  - left. exists res. split; [exact Hans|]. exact (run_chain_cons _ [] _ _ _ _ E).
Qed.

End Unmatched.

(* ===================================================================== *)
(** ** Further properties: the product list *)
(* ===================================================================== *)

Lemma ceil_div_bounds (a b : Z) :
  0 < b → (ceil_div a b - 1) * b < a ≤ ceil_div a b * b.
Proof.
  intros Hb. unfold ceil_div.
  pose proof (Z.div_mod (- a) b ltac:(lia)) as Hdm.
  pose proof (Z.mod_pos_bound (- a) b Hb) as Hm. nia.
Qed.

Lemma check_int_empty (path msg : string) (lo : Z) (hi : option Z) (q : QueryInt) :
  check_int path msg lo hi q = [] ↔
  q = QAbsent ∨ ∃ n, q = QInt n ∧ lo ≤ n ∧ from_option (λ h, n ≤ h) True hi.
Proof.
  unfold check_int. destruct q as [|n|raw].
  - split; auto.
  - destruct (Z.leb_spec lo n), hi as [h|]; simpl;
      try destruct (Z.leb_spec n h); simpl; split; intros Hx;
      try discriminate; try reflexivity;
      try (right; exists n; repeat split; simpl; auto; lia);
      destruct Hx as [Hx|(m & Hm & ? & ?)];
      try discriminate; injection Hm as <-; simpl in *; lia.
  - split; [discriminate|]. intros [Hx|(m & Hm & _)]; discriminate.
Qed.

Lemma with_owner_summary (w : World) (p : Obj) :
  ∃ o, json_field (with_owner w p) "owner" = Some o ∧ owner_summary o.
Proof.
  unfold with_owner, json_field. eexists. split; [apply lookup_insert_eq|].
  destruct (List.find _ (users w)) as [o|]; [|by left].
  right. eexists. split; [reflexivity|].
  intros k [v Hv]. unfold json_of_obj, only_attributes in Hv.
  rewrite lookup_fmap in Hv.
  destruct (filter _ o !! k) as [x|] eqn:Hx; [|discriminate].
  apply map_lookup_filter_Some in Hx as [_ Hin]. exact Hin.
Qed.

Section ProductListFacts.
Context `{SqlDialect}.

Lemma validationResult_empty (req : Request) :
  validationResult req = [] ↔
    (page (query req) = QAbsent ∨ ∃ n, page (query req) = QInt n ∧ 1 ≤ n)
    ∧ (limit (query req) = QAbsent
       ∨ ∃ n, limit (query req) = QInt n ∧ 1 ≤ n ≤ 100).
Proof.
  unfold validationResult. split.
  - intros Happ. apply app_eq_nil in Happ as [Hp Hl].
    apply check_int_empty in Hp, Hl. split.
    + destruct Hp as [|(n & ? & ? & _)]; [by left | right; by exists n].
    + destruct Hl as [|(n & ? & ? & ?)]; [by left | right; exists n; simpl in *; auto].
  - intros [Hp Hl].
    assert (Hp' : check_int "page" "Page must be a positive integer" 1 None
                    (page (query req)) = []).
    { apply check_int_empty. destruct Hp as [|(n & ? & ?)]; [by left|].
      right. exists n. simpl. auto. }
    assert (Hl' : check_int "limit" "Limit must be between 1 and 100" 1 (Some 100)
                    (limit (query req)) = []).
    { apply check_int_empty. destruct Hl as [|(n & ? & ? & ?)]; [by left|].
      right. exists n. simpl. auto. }
    rewrite Hp', Hl'. reflexivity.
Qed.

(** The list route accepts [page] when it is absent or an integer literal
    of at least 1, and [limit] when it is absent or an integer literal
    from 1 to 100; anything else is answered 400 "Validation failed" with
    the list of errors, before the account is looked at and without a
    query to the database. *)
Theorem list_products_validates_paging (req : Request) (w : World) :
  (validationResult req = [] ↔
     (page (query req) = QAbsent ∨ ∃ n, page (query req) = QInt n ∧ 1 ≤ n)
     ∧ (limit (query req) = QAbsent
        ∨ ∃ n, limit (query req) = QInt n ∧ 1 ≤ n ≤ 100))
  ∧ (validationResult req ≠ [] →
     list_products req w = (Normal (validation_failed (validationResult req)), w)).
Proof.
  split; [apply validationResult_empty|].
  intros Hbad. unfold list_products. eff.
  rewrite bool_decide_eq_false_2 by exact Hbad. reflexivity.
Qed.

(** A successful answer of the list route, in full. *)
Lemma list_products_200 (req : Request) (u : Obj) (w w' : World) (res : Response) :
  user req = Some u →
  list_products req w = (Normal (Respond res), w') →
  status res = JNum 200 →
  validationResult req = [] ∧ w' = w
  ∧ response_products res = with_owner w <$> listed_rows req u w
  ∧ response_pagination res "limit" = Some (JV (JNum (page_size req)))
  ∧ response_pagination res "total"
    = Some (JV (JNum (Z.of_nat (length (selected_rows req u w)))))
  ∧ response_pagination res "pages"
    = Some (JV (JNum (ceil_div (Z.of_nat (length (selected_rows req u w)))
                               (page_size req)))).
Proof.
  intros Hu E Hs. unfold list_products in E. eff.
  destruct (bool_decide (validationResult req = [])) eqn:Hv; simpl in E.
  2:{ inversion E; subst. discriminate. }
  apply bool_decide_eq_true in Hv.
  rewrite Hu in E. simpl in E.
  unfold findAndCountAll, db_query in E.
  destruct (db_fault w); simpl in E; [discriminate|].
  inversion E; subst. repeat split; try reflexivity. exact Hv.
Qed.

(** A successful answer of the list route holds at most [limit] products,
    where [limit] is the requested one (1 to 100) or 10; [total] counts
    the selected rows of all pages, and [pages] is the least number of
    pages of that size that hold them.  The state is left as it was. *)
Theorem list_products_page (req : Request) (u : Obj) (w w' : World)
    (res : Response) :
  user req = Some u →
  list_products req w = (Normal (Respond res), w') →
  status res = JNum 200 →
  w' = w
  ∧ 1 ≤ page_size req ≤ 100
  ∧ (length (response_products res) ≤ Z.to_nat (page_size req))%nat
  ∧ response_pagination res "limit" = Some (JV (JNum (page_size req)))
  ∧ response_pagination res "total"
    = Some (JV (JNum (Z.of_nat (length (selected_rows req u w)))))
  ∧ ∃ pages, response_pagination res "pages" = Some (JV (JNum pages))
             ∧ (pages - 1) * page_size req
               < Z.of_nat (length (selected_rows req u w))
               ≤ pages * page_size req.
Proof.
  intros Hu E Hs.
  destruct (list_products_200 req u w w' res Hu E Hs)
    as (Hv & Hw & Hrows & Hlimit & Htotal & Hpages).
  assert (Hsize : 1 ≤ page_size req ≤ 100).
  { apply validationResult_empty in Hv as [_ Hl].
    unfold page_size, parseInt_or.
    destruct Hl as [-> | (n & -> & Hn)]; [lia|].
    destruct (n =? 0) eqn:Hz; lia. }
  split; [exact Hw|]. split; [exact Hsize|]. split.
  { rewrite Hrows, length_fmap. unfold listed_rows. rewrite length_take.
    fold (page_size req). lia. }
  split; [exact Hlimit|]. split; [exact Htotal|].
  eexists. split; [exact Hpages|]. apply ceil_div_bounds. lia.
Qed.

(** The owner shown with a listed product is [null] or an object with no
    property beyond [id], [username] and [email]: a listing never carries
    an account's password hash. *)
Theorem list_products_owner_summary (req : Request) (u : Obj) (w w' : World)
    (res : Response) :
  user req = Some u →
  list_products req w = (Normal (Respond res), w') →
  status res = JNum 200 →
  Forall (λ p, ∃ o, json_field p "owner" = Some o ∧ owner_summary o
                    ∧ json_field o "password" = None)
    (response_products res).
Proof.
  intros Hu E Hs.
  destruct (list_products_200 req u w w' res Hu E Hs) as (_ & _ & Hrows & _).
  rewrite Hrows. apply Forall_fmap, Forall_forall. intros p _. simpl.
  destruct (with_owner_summary w p) as (o & Ho & Hsum).
  exists o. split; [exact Ho|]. split; [exact Hsum|].
  destruct Hsum as [-> | (fields & -> & Hkeys)]; [reflexivity|].
  simpl. destruct (fields !! "password") eqn:Hp; [|reflexivity].
  specialize (Hkeys "password" ltac:(by eexists)).
  repeat (apply elem_of_cons in Hkeys as [Hkeys|Hkeys]; [discriminate|]).
  by apply elem_of_nil in Hkeys.
Qed.

End ProductListFacts.

Lemma list_products_validates_paging_witness :
  @list_products Fixture.dialect
    (Samples.list_request Fixture.alice (QInt 0) QAbsent) Fixture.world_offline
  = (Normal (validation_failed
               [validation_error "page" "Page must be a positive integer"]),
     Fixture.world_offline)
  ∧ @list_products Fixture.dialect
      (Samples.list_request Fixture.alice QAbsent (QInt 101)) Fixture.world_offline
    = (Normal (validation_failed
                 [validation_error "limit" "Limit must be between 1 and 100"]),
       Fixture.world_offline).
Proof.
  split.
  - destruct (@list_products_validates_paging Fixture.dialect
                (Samples.list_request Fixture.alice (QInt 0) QAbsent)
                Fixture.world_offline) as [_ Hbad].
    apply Hbad. discriminate.
  - destruct (@list_products_validates_paging Fixture.dialect
                (Samples.list_request Fixture.alice QAbsent (QInt 101))
                Fixture.world_offline) as [_ Hbad].
    apply Hbad. discriminate.
Defined.

Lemma list_products_page_witness :
  (length (response_products (Fixture.listing_for Fixture.root)) ≤ 10)%nat
  ∧ response_pagination (Fixture.listing_for Fixture.root) "total"
    = Some (JV (JNum 2)).
Proof.
  destruct (@list_products_page Fixture.dialect
              (Fixture.request_as Fixture.root JUndefined) Fixture.root
              Fixture.world Fixture.world (Fixture.listing_for Fixture.root)
              eq_refl eq_refl eq_refl) as (_ & _ & Hlen & _ & Htotal & _).
  split; [exact Hlen | exact Htotal].
Defined.

Lemma list_products_owner_summary_witness :
  Forall (λ p, ∃ o, json_field p "owner" = Some o ∧ owner_summary o
                    ∧ json_field o "password" = None)
    (response_products (Fixture.listing_for Fixture.root)).
Proof.
  exact (@list_products_owner_summary Fixture.dialect
           (Fixture.request_as Fixture.root JUndefined) Fixture.root
           Fixture.world Fixture.world (Fixture.listing_for Fixture.root)
           eq_refl eq_refl eq_refl).
Defined.

(* ===================================================================== *)
(** ** Further properties: reading and deleting *)
(* ===================================================================== *)

(** A chain of middleware that leave the process alone changes nothing
    but the console, and that by at most the one entry of the error
    handler. *)
Lemma run_chain_quiet `{HttpLayer} (chain : list Middleware) (req : Request)
    (w : World) :
  Forall quiet chain →
  same_but_console w (run_chain chain req w).2
  ∧ at_most_one_logged w (run_chain chain req w).2.
Proof.
  intros Hq. revert req. induction Hq as [|mw rest Hmw _ IH]; intros req.
  - simpl. split; [repeat split | by left].
  - simpl. eff. specialize (Hmw req w).
    destruct (mw req w) as [[o|e] w1]; simpl in Hmw; subst w1.
    + destruct o as [req'|res|e].
      * apply IH.
      * split; [repeat split | by left].
      * destruct (errorHandler_logs e req w) as [Hsame Hlog].
        split; [exact Hsame | right; by exists e].
    + simpl. destruct (errorHandler_logs e req w) as [Hsame Hlog].
      split; [exact Hsame | right; by exists e].
Qed.

Lemma not_owner_nor_admin_quiet (req : Request) (product : Obj) (w : World) :
  (not_owner_nor_admin req product w).2 = w.
Proof.
  unfold not_owner_nor_admin, req_user_prop.
  destruct (user req) as [u|]; eff; [|reflexivity].
  destruct (strict_ne (get u "role") (JStr "admin")); reflexivity.
Qed.

Lemma get_product_quiet : quiet get_product.
Proof.
  intros req w. unfold get_product. eff.
  pose proof (findByPk_readonly products (get (params req) "id") [] w) as Hw.
  destruct (findByPk products (get (params req) "id") [] w) as [[[p|]|e] w1];
    simpl in Hw; subst w1; try reflexivity.
  pose proof (not_owner_nor_admin_quiet req p w) as Hn.
  destruct (not_owner_nor_admin req p w) as [[[|]|e] w1];
    simpl in Hn; subst w1; reflexivity.
Qed.

Lemma get_user_quiet : quiet get_user.
Proof.
  intros req w. unfold get_user. eff.
  pose proof (findByPk_readonly users (get (params req) "id") ["password"] w) as Hw.
  destruct (findByPk users (get (params req) "id") ["password"] w) as [[[p|]|e] w1];
    simpl in Hw; subst w1; reflexivity.
Qed.

Lemma authorizeAdmin_quiet : quiet authorizeAdmin.
Proof.
  intros req w. unfold authorizeAdmin, req_user_prop.
  destruct (user req) as [u|]; eff; [|reflexivity].
  destruct (strict_ne (get u "role") (JStr "admin")); reflexivity.
Qed.

Section ReadOnly.
Context `{TokenCodec} `{SqlDialect} `{HttpLayer}.

Lemma authenticate_quiet : quiet authenticate.
Proof.
  intros req w.
  destruct (authenticate_cases req w) as [(u & _ & _ & E)|(res & _ & E)];
    rewrite E; reflexivity.
Qed.

Lemma list_products_quiet : quiet list_products.
Proof.
  intros req w. unfold list_products. eff.
  destruct (bool_decide (validationResult req = [])); simpl; [|reflexivity].
  destruct (user req) as [u|]; simpl; [|reflexivity].
  unfold findAndCountAll, db_query. destruct (db_fault w); reflexivity.
Qed.

(** The GET routes read and never write: whatever the request, after the
    chain of the product list, of a single product, of a single user, or
    of an unmatched path under the products router, the tables, the
    environment and the store's availability are as before, and the
    console has at most one entry more. *)
Theorem get_routes_read_only (chain : list Middleware) (req : Request) (w : World) :
  chain ∈ [products_list_route; products_get_route; users_get_route;
           products_unmatched_route] →
  same_but_console w (run_chain chain req w).2
  ∧ at_most_one_logged w (run_chain chain req w).2.
Proof.
  intros Hin. apply run_chain_quiet.
  repeat (apply elem_of_cons in Hin as [->|Hin]);
    [| | | |by apply elem_of_nil in Hin];
    repeat constructor;
    auto using authenticate_quiet, list_products_quiet, get_product_quiet,
               get_user_quiet, authorizeAdmin_quiet.
Qed.

End ReadOnly.

Lemma get_routes_read_only_witness :
  same_but_console Fixture.world_offline
    (run_chain (H := Fixture.http) (@products_list_route Fixture.codec Fixture.dialect)
       (Fixture.request (bearer "alice")) Fixture.world_offline).2.
Proof.
  apply (@get_routes_read_only Fixture.codec Fixture.dialect Fixture.http
           (@products_list_route Fixture.codec Fixture.dialect)
           (Fixture.request (bearer "alice")) Fixture.world_offline).
  apply elem_of_cons. left. reflexivity.
Defined.

(** DELETE /products/:id removes rows only for their owner or an admin:
    whatever the outcome, the users table and the console are untouched,
    and either the products table is as it was, or the answer is the 200
    "Product deleted successfully", exactly the rows with the requested id
    are gone, and the account is an admin or the [userId] of the product
    found under that id. *)
Theorem delete_product_effect (req : Request) (u : Obj) (w w' : World)
    (o : Completion Outcome) :
  user req = Some u →
  delete_product req w = (o, w') →
  users w' = users w ∧ console w' = console w
  ∧ (products w' = products w
     ∨ (o = Normal (Respond deleted)
        ∧ products w'
          = List.filter (λ r, negb (has_pk (get (params req) "id") r)) (products w)
        ∧ ∃ product,
            List.find (has_pk (get (params req) "id")) (products w) = Some product
            ∧ (get u "role" = JStr "admin"
               ∨ get product "userId" = get u "id"))).
Proof.
  intros Hu E. unfold delete_product in E. eff.
  pose proof (findByPk_readonly products (get (params req) "id") [] w) as Hw.
  destruct (findByPk products (get (params req) "id") [] w) as [[[p|]|e] w1] eqn:Hfind;
    simpl in Hw; subst w1.
  2,3: inversion E; subst; auto.
  rewrite (req_user_prop_some req u "role" w Hu) in E.
  assert (Hrow : List.find (has_pk (get (params req) "id")) (products w) = Some p
                 ∧ get p "id" = get (params req) "id" ∧ db_fault w = None).
  { destruct (findByPk_some_inv _ _ _ _ _ _ Hfind) as [Hdb _].
    destruct (findByPk_stored _ _ _ _ _ Hfind) as [_ Hpk].
    unfold findByPk, db_query in Hfind.
    destruct (get (params req) "id"); eff; try discriminate;
      rewrite Hdb in Hfind;
      (destruct (List.find _ (products w)) as [found|]; simpl in Hfind; [|discriminate]);
      inversion Hfind; subst; auto. }
  destruct Hrow as (Hfound & Hpk & Hdb).
  assert (Hdestroy : destroy_product p w
            = (Normal tt,
               {| env := env w; clock := clock w; users := users w;
                  products := List.filter (λ r, negb (has_pk (get p "id") r)) (products w);
                  db_fault := db_fault w; console := console w |})).
  { unfold destroy_product. rewrite Hdb. reflexivity. }
  destruct (strict_ne (get u "role") (JStr "admin")) eqn:Hrole; simpl in E.
  - rewrite (req_user_prop_some req u "id" w Hu) in E.
    destruct (strict_ne (get p "userId") (get u "id")) eqn:Hown; simpl in E.
    + inversion E; subst; auto.
    + rewrite Hdestroy in E. inversion E; subst; simpl.
      split; [reflexivity|]. split; [reflexivity|]. right.
      split; [reflexivity|]. split; [by rewrite Hpk|].
      exists p. split; [exact Hfound|]. right.
      apply negb_false_iff in Hown. by apply strict_eq_true_iff.
  - rewrite Hdestroy in E. inversion E; subst; simpl.
    split; [reflexivity|]. split; [reflexivity|]. right.
    split; [reflexivity|]. split; [by rewrite Hpk|].
    exists p. split; [exact Hfound|]. left.
    apply negb_false_iff in Hrole. by apply strict_eq_true_iff.
Qed.

Lemma delete_product_effect_witness :
  products (delete_product (Samples.item_request Fixture.alice "p2") Fixture.world).2
  = products Fixture.world
  ∧ products (delete_product (Samples.item_request Fixture.alice "p1") Fixture.world).2
    = [Fixture.product "p2" "4K Monitor" "a1" 20].
Proof.
  split.
  - destruct (delete_product_effect (Samples.item_request Fixture.alice "p2")
                Fixture.alice Fixture.world
                (delete_product (Samples.item_request Fixture.alice "p2") Fixture.world).2
                (delete_product (Samples.item_request Fixture.alice "p2") Fixture.world).1
                eq_refl eq_refl) as (_ & _ & [Hsame|(Hgone & _)]).
    + exact Hsame.
    + discriminate Hgone.
  - destruct (delete_product_effect (Samples.item_request Fixture.alice "p1")
                Fixture.alice Fixture.world
                (delete_product (Samples.item_request Fixture.alice "p1") Fixture.world).2
                (delete_product (Samples.item_request Fixture.alice "p1") Fixture.world).1
                eq_refl eq_refl) as (_ & _ & [Hsame|(_ & Hgone & _)]).
    + discriminate Hsame.
    + exact Hgone.
Defined.

Lemma not_owner_nor_admin_decides (req : Request) (u product : Obj) (w : World) :
  user req = Some u →
  not_owner_nor_admin req product w =
    (Normal (negb (strict_eq (get u "role") (JStr "admin")
                   || strict_eq (get product "userId") (get u "id"))), w).
Proof.
  intros Hu. unfold not_owner_nor_admin. eff.
  rewrite (req_user_prop_some req u "role" w Hu). unfold strict_ne.
  destruct (strict_eq (get u "role") (JStr "admin")); simpl; [reflexivity|].
  rewrite (req_user_prop_some req u "id" w Hu). reflexivity.
Qed.

(** GET /products/:id answers 404 when the lookup finds nothing, whoever
    asks; for a product that is there, 200 with the product to an admin
    or to the account its [userId] names, and 403 to anyone else.  So a
    200 given to an account that is not admin always carries a product
    whose [userId] is that account's id. *)
Theorem get_product_decision (req : Request) (u : Obj) (w : World)
    (found : option Obj) :
  user req = Some u →
  findByPk products (get (params req) "id") [] w = (Normal found, w) →
  get_product req w =
    (Normal (Respond
       match found with
       | None => not_found_product
       | Some product =>
           if strict_eq (get u "role") (JStr "admin")
              || strict_eq (get product "userId") (get u "id")
           then product_found w product
           else forbidden_view
       end), w)
  ∧ (∀ res, get_product req w = (Normal (Respond res), w) →
       status res = JNum 200 → get u "role" ≠ JStr "admin" →
       ∃ p, response_product res = Some p
            ∧ json_get p "userId" = JV (get u "id")).
Proof.
  intros Hu Hfind.
  assert (E : get_product req w =
    (Normal (Respond
       match found with
       | None => not_found_product
       | Some product =>
           if strict_eq (get u "role") (JStr "admin")
              || strict_eq (get product "userId") (get u "id")
           then product_found w product
           else forbidden_view
       end), w)).
  { unfold get_product. eff. rewrite Hfind.
    destruct found as [product|]; [|reflexivity].
    rewrite (not_owner_nor_admin_decides req u product w Hu).
    destruct (_ || _); reflexivity. }
  split; [exact E|].
  intros res Eres Hs Hrole.
  pose proof (eq_trans (eq_sym E) Eres) as Hres. injection Hres as Hres.
  clear E Eres.
  destruct found as [product|]; [|subst res; discriminate Hs].
  rewrite (strict_eq_ne _ _ Hrole) in Hres. simpl in Hres.
  destruct (strict_eq (get product "userId") (get u "id")) eqn:Hown;
    subst res; [|discriminate Hs].
  exists (with_owner w product). split; [reflexivity|].
  rewrite with_owner_userId. f_equal. by apply strict_eq_true_iff.
Qed.

Lemma get_product_decision_witness :
  get_product (Samples.item_request Fixture.alice "p2") Fixture.world
  = (Normal (Respond forbidden_view), Fixture.world)
  ∧ get_product (Samples.item_request Fixture.alice "p7") Fixture.world
    = (Normal (Respond not_found_product), Fixture.world).
Proof.
  split.
  - exact (proj1 (get_product_decision (Samples.item_request Fixture.alice "p2")
                    Fixture.alice Fixture.world
                    (Some (Fixture.product "p2" "4K Monitor" "a1" 20))
                    eq_refl eq_refl)).
  - exact (proj1 (get_product_decision (Samples.item_request Fixture.alice "p7")
                    Fixture.alice Fixture.world None eq_refl eq_refl)).
Defined.

Section Writes.
Context `{BodyValidators} `{ProductWrites}.

(** PUT /products/:id reaches the model's [update] only for an admin or
    the owner of a product that is there.  A body the validators reject
    is answered 400 first, before any lookup; a missing product 404; a
    product of another account 403; and in all three cases the state is
    left as it was, whatever the model's [update] would do. *)
Theorem update_product_guarded (req : Request) (u : Obj) (w : World) :
  user req = Some u →
  (body_errors put_checks req ≠ [] →
     update_product req w
     = (Normal (validation_failed (body_errors put_checks req)), w))
  ∧ (body_errors put_checks req = [] →
     findByPk products (get (params req) "id") [] w = (Normal None, w) →
     update_product req w = (Normal (Respond not_found_product), w))
  ∧ (∀ product,
       body_errors put_checks req = [] →
       findByPk products (get (params req) "id") [] w = (Normal (Some product), w) →
       get u "role" ≠ JStr "admin" → get product "userId" ≠ get u "id" →
       update_product req w = (Normal (Respond forbidden_update), w)).
Proof.
  intros Hu. unfold update_product. cbv zeta. split; [|split].
  - intros Hbad. rewrite bool_decide_eq_false_2 by exact Hbad. reflexivity.
  - intros Hok Hfind. rewrite bool_decide_eq_true_2 by exact Hok.
    eff. rewrite Hfind. reflexivity.
  - intros product Hok Hfind Hrole Hown. rewrite bool_decide_eq_true_2 by exact Hok.
    eff. rewrite Hfind.
    rewrite (not_owner_nor_admin_decides req u product w Hu).
    rewrite (strict_eq_ne _ _ Hrole), (strict_eq_ne _ _ Hown). reflexivity.
Qed.

(** The validators do not look at the body's [userId] and the route
    writes over it: two bodies that differ only there have the same
    outcome. *)
Lemma create_product_body_owner_ignored (req : Request) (b b' : Obj) (w : World) :
  (∀ k, k ≠ "userId" → b !! k = b' !! k) →
  create_product (with_body req b) w = create_product (with_body req b') w.
Proof.
  intros Hsame.
  assert (Hget : ∀ k, k ≠ "userId" → get b k = get b' k).
  { intros k Hk. unfold get. by rewrite (Hsame k Hk). }
  assert (Herr : body_errors post_checks (with_body req b)
                 = body_errors post_checks (with_body req b')).
  { unfold body_errors. simpl. rewrite !Hget by discriminate. reflexivity. }
  assert (Hdata : ∀ id : jsval, <["userId" := id]> b = <["userId" := id]> b').
  { intros id. apply map_eq. intros k. destruct (decide (k = "userId")) as [->|Hk].
    - by rewrite !lookup_insert_eq.
    - rewrite !lookup_insert_ne by congruence. by apply Hsame. }
  unfold create_product. cbv zeta. rewrite Herr.
  destruct (negb (bool_decide (body_errors post_checks (with_body req b') = [])));
    [reflexivity|].
  unfold req_user_prop. simpl.
  destruct (user req) as [u|]; eff; [|reflexivity].
  rewrite (Hdata (get u "id")). reflexivity.
Qed.

(** POST /products gives the new product to the requesting account.  For
    an authenticated request whose body the validators accept, the route
    is one call of the model's [create] on the body with [userId] set to
    [req.user.id] (written over whatever the body says, the other
    properties as the body has them): 201 with the created product when
    the call returns, its error handed on when it throws.  So the body's
    own [userId] has no effect on the outcome. *)
Theorem create_product_owner_is_requester (req : Request) (u : Obj) (w : World) :
  user req = Some u →
  body_errors post_checks req = [] →
  let data := <["userId" := get u "id"]> (body_ req) in
  data !! "userId" = Some (get u "id")
  ∧ (∀ k, k ≠ "userId" → data !! k = body_ req !! k)
  ∧ create_product req w =
      match Product_create data w with
      | (Normal product, w') => (Normal (Respond (product_created product)), w')
      | (Throw e, w') => (Normal (Forward e), w')
      end
  ∧ (∀ b', (∀ k, k ≠ "userId" → b' !! k = body_ req !! k) →
       create_product (with_body req b') w = create_product req w).
Proof.
  intros Hu Hok data. split; [apply lookup_insert_eq|].
  split; [intros k Hk; apply lookup_insert_ne; congruence|]. split.
  - unfold create_product. cbv zeta.
    rewrite bool_decide_eq_true_2 by exact Hok. eff.
    rewrite (req_user_prop_some req u "id" w Hu). fold data.
    destruct (Product_create data w) as [[product|e] w']; reflexivity.
  - intros b' Hsame.
    exact (create_product_body_owner_ignored req b' (body_ req) w Hsame).
Qed.

End Writes.

Lemma update_product_guarded_witness :
  @update_product Samples.lenient Samples.store_as_given
    (Samples.item_request Fixture.alice "p2") Fixture.world
  = (Normal (Respond forbidden_update), Fixture.world).
Proof.
  destruct (@update_product_guarded Samples.lenient Samples.store_as_given
              (Samples.item_request Fixture.alice "p2") Fixture.alice Fixture.world
              eq_refl) as (_ & _ & Hstranger).
  apply (Hstranger (Fixture.product "p2" "4K Monitor" "a1" 20));
    [reflexivity | reflexivity | discriminate | discriminate].
Defined.

Lemma create_product_owner_is_requester_witness :
  @create_product Samples.checked Samples.store_as_given
    (Samples.body_request Fixture.alice Samples.desk_for_root) Fixture.world
  = (Normal (Respond (product_created
       {[ "name" := JStr "Desk"; "price" := JNum 120; "userId" := JStr "u1" ]})),
     {| env := env Fixture.world; clock := clock Fixture.world;
        users := users Fixture.world;
        products := {[ "name" := JStr "Desk"; "price" := JNum 120;
                       "userId" := JStr "u1" ]} :: products Fixture.world;
        db_fault := None; console := [] |}).
Proof.
  destruct (@create_product_owner_is_requester Samples.checked Samples.store_as_given
              (Samples.body_request Fixture.alice Samples.desk_for_root)
              Fixture.alice Fixture.world eq_refl eq_refl)
    as (_ & _ & Hcall & _).
  etransitivity; [exact Hcall | reflexivity].
Defined.

Lemma get_user_excludes_password_witness :
  ∃ account, response_user Samples.user_page = Some account
             ∧ json_field account "password" = None.
Proof.
  exact (get_user_excludes_password (Samples.item_request Fixture.root "u1")
           Fixture.world Fixture.world Samples.user_page eq_refl eq_refl).
Defined.

(* ===================================================================== *)
(** ** Further properties: the list route behind authenticate *)
(* ===================================================================== *)

Section ListEndToEnd.
Context `{TokenCodec} `{SqlDialect} `{HttpLayer}.

Lemma listed_rows_owned (req : Request) (u : Obj) (w : World) :
  strict_ne (get u "role") (JStr "admin") = true →
  Forall (λ p, json_get (with_owner w p) "userId" = JV (get u "id"))
    (listed_rows req u w).
Proof.
  intros Hrole. unfold listed_rows. apply Forall_take, Forall_drop.
  rewrite merge_sort_Permutation. apply Forall_forall. intros p Hin.
  apply list_elem_of_In, filter_In in Hin as [_ Hm].
  rewrite with_owner_userId. f_equal.
  pose proof (build_where_owner req u) as Hw. rewrite Hrole in Hw.
  pose proof (matches_lookup _ _ _ _ Hm Hw) as Hc. simpl in Hc.
  by apply bool_decide_eq_true in Hc.
Qed.

(** From the header to the listing: a 200 of the product list behind
    [authenticate], for a request whose bearer token the codec decodes,
    was given to the account the store holds under the token's subject
    id, an active one; the state is as it was; the answer holds the page
    of rows selected for that account; and unless that account's stored
    role is "admin", every product in it has that account's id as its
    [userId]. *)
Theorem products_list_route_own_products (req : Request) (w w' : World)
    (res : Response) (token : string) (decoded : Obj) :
  authorization req = bearer token →
  jwt_verify token (JWT_SECRET (env w)) (clock w) = Normal decoded →
  run_chain products_list_route req w = (Normal res, w') →
  status res = JNum 200 →
  ∃ u, lookup_account decoded w = (Normal (Some u), w)
       ∧ get u "id" = get decoded "id"
       ∧ truthy (get u "isActive") = true
       ∧ w' = w
       ∧ response_products res = with_owner w <$> listed_rows req u w
       ∧ (strict_ne (get u "role") (JStr "admin") = true →
          Forall (λ p, json_get p "userId" = JV (get u "id"))
            (response_products res)).
Proof.
  intros Hh Hv Erun Hs. unfold products_list_route in Erun.
  pose proof (authenticate_verified req w token decoded Hh Hv) as E.
  pose proof (findByPk_readonly users (get decoded "id") [] w) as Hw.
  fold (lookup_account decoded) in Hw.
  destruct (lookup_account decoded w) as [[[u|]|e] w1] eqn:Hlook;
    simpl in Hw; subst w1.
  - destruct (truthy (get u "isActive")) eqn:Hact.
    + pose proof (eq_trans (eq_sym (run_chain_cons _ [list_products] _ _ _ _ E)) Erun)
        as Erest. cbv beta iota in Erest.
      unfold lookup_account in Hlook.
      destruct (findByPk_some_inv _ _ _ _ _ _ Hlook) as [Hdb _].
      destruct (findByPk_stored _ _ _ _ _ Hlook) as [_ Hpk].
      assert (Hnot : ∀ o w1, list_products (set_user req u) w = (o, w1) →
                ∃ res', o = Normal (Respond res')).
      { intros o w1 El. unfold list_products in El. eff.
        destruct (bool_decide (validationResult (set_user req u) = [])); simpl in El.
        - unfold findAndCountAll, db_query in El. rewrite Hdb in El.
          inversion El. by eexists.
        - inversion El. by eexists. }
      destruct (list_products (set_user req u) w) as [o w1] eqn:El.
      destruct (Hnot o w1 eq_refl) as [res' ->].
      pose proof (eq_trans (eq_sym (run_chain_cons _ [] _ _ _ _ El)) Erest) as Eo.
      cbv beta iota in Eo. inversion Eo; subst.
      pose proof (list_products_quiet (set_user req u) w) as Hq.
      rewrite El in Hq. simpl in Hq. subst w'.
      pose proof (list_products_ok (set_user req u) u w _ res eq_refl El Hs) as Hrows.
      exists u. split; [reflexivity|]. split; [exact Hpk|]. split; [exact Hact|].
      split; [reflexivity|]. split; [exact Hrows|].
      intros Hrole. rewrite Hrows. apply Forall_fmap.
      exact (listed_rows_owned (set_user req u) u w Hrole).
    + pose proof (eq_trans (eq_sym (run_chain_cons _ [list_products] _ _ _ _ E)) Erun)
        as Eans. cbv beta iota in Eans. inversion Eans; subst. discriminate Hs.
  - pose proof (eq_trans (eq_sym (run_chain_cons _ [list_products] _ _ _ _ E)) Erun)
      as Eans. cbv beta iota in Eans. inversion Eans; subst. discriminate Hs.
  - destruct (authenticate_catch_answers e w) as (ans & Hans & Ec).
    rewrite Ec in E.
    pose proof (eq_trans (eq_sym (run_chain_cons _ [list_products] _ _ _ _ E)) Erun)
      as Eans. cbv beta iota in Eans. inversion Eans; subst.
    inversion Hans; subst; discriminate Hs.
Qed.

End ListEndToEnd.

Lemma products_list_route_own_products_witness :
  lookup_account {[ "id" := JStr "u1"; "role" := JStr "user" ]} Fixture.world
  = (Normal (Some Fixture.alice), Fixture.world)
  ∧ Forall (λ p, json_get p "userId" = JV (JStr "u1"))
      (response_products (Fixture.listing_for Fixture.alice)).
Proof.
  destruct (@products_list_route_own_products Fixture.codec Fixture.dialect
              Fixture.http (Fixture.request (bearer "alice")) Fixture.world
              Fixture.world (Fixture.listing_for Fixture.alice) "alice"
              {[ "id" := JStr "u1"; "role" := JStr "user" ]}
              eq_refl eq_refl eq_refl eq_refl)
    as (u & Hlook & _ & _ & _ & _ & Hown).
  split; [reflexivity|].
  assert (Hsome : Some u = Some Fixture.alice).
  { apply (f_equal (λ r : Completion (option Obj) * World,
                      match r.1 with Normal found => found | Throw _ => None end))
      in Hlook. exact (eq_sym Hlook). }
  injection Hsome as ->. apply Hown. reflexivity.
Defined.
